(** * Markdown table utilities: column reorder, row reversal, split by year

    A shallow embedding of [reorder_columns.py], [reverse_table.py] and
    [split_by_year.py], and the properties of their table-processing logic.

    Python text is a sequence of Unicode code points, so a [str] is a list
    of code points ([N]); byte strings never occur in these scripts.  Files
    are a finite map from paths to their text. *)

From Stdlib Require Import ZArith NArith List String Ascii Lia.
From Stdlib Require Import Sorting.Permutation Sorting.Sorted.
From stdpp Require Import base option list gmap.

Local Open Scope N_scope.

(** ** The Python runtime operations the scripts use *)

Module Py.

(** A code point, and Python's [str]. *)
Definition char := N.
Definition str := list N.

(** An ASCII literal of the source, as a [str]. *)
Definition lit (s : string) : str :=
  List.map N_of_ascii (list_ascii_of_string s).

Definition PIPE : char := 124.      (* '|' *)
Definition NL : char := 10.         (* '\n' *)
Definition CR : char := 13.         (* '\r' *)
Definition COMMA : char := 44.      (* ',' *)
Definition SPACE : char := 32.      (* ' ' *)
Definition ARROW : char := 8594.    (* U+2192, the range arrow of date cells *)

(** [str.isspace] on one code point: the code points [str.strip()] and
    [str.split()] treat as whitespace. *)
Definition isspace (c : char) : bool :=
  ((9 <=? c) && (c <=? 13)) || ((28 <=? c) && (c <=? 32))
  || (c =? 133) || (c =? 160) || (c =? 5760)
  || ((8192 <=? c) && (c <=? 8202))
  || (c =? 8232) || (c =? 8233) || (c =? 8239) || (c =? 8287)
  || (c =? 12288).

Fixpoint dropwhile (p : char -> bool) (s : str) : str :=
  match s with
  | [] => []
  | c :: s' => if p c then dropwhile p s' else s
  end.

Definition lstrip (s : str) : str := dropwhile isspace s.
Definition rstrip (s : str) : str := rev (dropwhile isspace (rev s)).
(** [s.strip()] *)
Definition strip (s : str) : str := rstrip (lstrip s).

Definition mem_char (c : char) (cs : str) : bool := existsb (N.eqb c) cs.
(** [s.rstrip(chars)] *)
Definition rstrip_chars (chars s : str) : str :=
  rev (dropwhile (fun c => mem_char c chars) (rev s)).

(** The truth value of a [str] in a condition: it is not empty. *)
Definition truthy (s : str) : bool :=
  match s with [] => false | _ => true end.

(** [s.startswith(p)] *)
Fixpoint startswith (p s : str) : bool :=
  match p, s with
  | [], _ => true
  | _ :: _, [] => false
  | a :: p', b :: s' => (a =? b) && startswith p' s'
  end.

(** [s.endswith(p)] *)
Definition endswith (p s : str) : bool := startswith (rev p) (rev s).

(** [sub in s] *)
Fixpoint contains (sub s : str) : bool :=
  startswith sub s ||
  match s with
  | [] => false
  | _ :: s' => contains sub s'
  end.

(** [s.split(c)] for a separator of one code point, which is every
    separator these scripts split on ('|', the arrow, '\n'). *)
Fixpoint split (c : char) (s : str) : list str :=
  match s with
  | [] => [[]]
  | x :: s' =>
      if x =? c then [] :: split c s'
      else match split c s' with
           | h :: t => (x :: h) :: t
           | [] => [[x]]
           end
  end.

(** [sep.join(parts)] *)
Fixpoint join (sep : str) (parts : list str) : str :=
  match parts with
  | [] => []
  | [p] => p
  | p :: ps => p ++ sep ++ join sep ps
  end.

(** The maximal runs of code points that are not separators. [cur] is the
    run being read, kept reversed. *)
Fixpoint fields_from (sep : char -> bool) (cur : str) (s : str) : list str :=
  match s with
  | [] => match cur with [] => [] | _ => [rev cur] end
  | c :: s' =>
      if sep c
      then match cur with
           | [] => fields_from sep [] s'
           | _ => rev cur :: fields_from sep [] s'
           end
      else fields_from sep (c :: cur) s'
  end.

(** [s.split()]: the maximal runs of non-whitespace. *)
Definition split_ws (s : str) : list str := fields_from isspace [] s.

(** [s.replace(a, b)] for single code points. *)
Definition replace (a b : char) (s : str) : str :=
  List.map (fun c => if c =? a then b else c) s.

(** [''.join(parts)] *)
Definition concat_str (parts : list str) : str := List.concat parts.

(** Decimal digits of a natural number, as [str(n)] / an f-string prints
    them. *)
Fixpoint digits_fuel (fuel : nat) (n : N) (acc : str) : str :=
  match fuel with
  | O => acc
  | S f =>
      let acc' := (48 + n mod 10) :: acc in
      if n <? 10 then acc' else digits_fuel f (n / 10) acc'
  end.
Definition str_of_N (n : N) : str := digits_fuel (S (N.to_nat (N.log2 n))) n [].
Definition str_of_nat (n : nat) : str := str_of_N (N.of_nat n).

(** The number a string of decimal digits stands for. *)
Definition decimal_value (s : str) : N :=
  fold_left (fun a c => 10 * a + (c - 48)) s 0.

(** [s] is a decimal numeral of [n]: one or more of the digits 0 to 9,
    with the value [n]. *)
Definition is_decimal_of (s : str) (n : N) : Prop :=
  s <> [] /\ Forall (fun c => 48 <= c /\ c <= 57) s /\ decimal_value s = n.

(** [sorted(l)] on integers.  Python's sort is stable; on integers any
    sort gives the same list, here by insertion. *)
Fixpoint insert_sorted (x : Z) (l : list Z) : list Z :=
  match l with
  | [] => [x]
  | y :: l' => if (x <=? y)%Z then x :: l else y :: insert_sorted x l'
  end.
Fixpoint sorted (l : list Z) : list Z :=
  match l with
  | [] => []
  | x :: l' => insert_sorted x (sorted l')
  end.

(** [list(range(n))] *)
Definition range (n : nat) : list Z := List.map Z.of_nat (seq 0 n).

(** [l[i]] with Python's indexing: a negative index counts from the end,
    and [None] stands for [IndexError]. *)
Definition index {A} (l : list A) (i : Z) : option A :=
  let n := Z.of_nat (length l) in
  if (0 <=? i)%Z then l !! Z.to_nat i
  else if (0 <=? n + i)%Z then l !! Z.to_nat (n + i)
  else None.

(** [l.pop(i)] for an index in range: the list without position [i]. *)
Definition pop_at {A} (i : nat) (l : list A) : list A := take i l ++ drop (S i) l.
(** [l.insert(i, x)] for [0 <= i]: past the end it appends. *)
Definition insert_at {A} (i : nat) (x : A) (l : list A) : list A :=
  take i l ++ x :: drop i l.

(** [f.readlines()] of a text file opened with the default universal
    newlines: "\r\n" and a lone "\r" read as "\n", and every line keeps its
    "\n" (the last line has none when the text does not end in one). *)
Fixpoint universal_newlines (s : str) : str :=
  match s with
  | [] => []
  | c :: s' =>
      if c =? CR
      then NL :: match s' with
                 | d :: s'' => if d =? NL then universal_newlines s''
                               else universal_newlines s'
                 | [] => []
                 end
      else c :: universal_newlines s'
  end.

Fixpoint splitlines_keep (cur : str) (s : str) : list str :=
  match s with
  | [] => match cur with [] => [] | _ => [rev cur] end
  | c :: s' =>
      if c =? NL then rev (c :: cur) :: splitlines_keep [] s'
      else splitlines_keep (c :: cur) s'
  end.
Definition readlines (text : str) : list str :=
  splitlines_keep [] (universal_newlines text).

(** A reference [int] for plain ASCII literals: an optional sign, then
    decimal digits with single underscores allowed between digits. *)
Definition ascii_digit (c : char) : option Z :=
  if (48 <=? c) && (c <=? 57) then Some (Z.of_N (c - 48)) else None.

Fixpoint int_digits (acc : Z) (after_digit : bool) (s : str) : option Z :=
  match s with
  | [] => if after_digit then Some acc else None
  | c :: s' =>
      if c =? 95 (* '_' *) then
        if after_digit then int_digits acc false s' else None
      else
        match ascii_digit c with
        | Some d => int_digits (10 * acc + d)%Z true s'
        | None => None
        end
  end.

Definition int_ascii (s : str) : option Z :=
  match s with
  | [] => None
  | c :: s' =>
      if c =? 45 (* '-' *) then
        match s' with
        | d :: _ => if d =? 95 then None else Z.opp <$> int_digits 0 true s'
        | [] => None
        end
      else if c =? 43 (* '+' *) then
        match s' with
        | d :: _ => if d =? 95 then None else int_digits 0 true s'
        | [] => None
        end
      else if c =? 95 then None
      else int_digits 0 true s
  end.

#[global] Arguments lit : simpl never.
#[global] Arguments strip : simpl never.
#[global] Arguments startswith : simpl never.
#[global] Arguments contains : simpl never.

End Py.

(** ** reverse_table.py *)

Module ReverseTable.
Import Py.

(** The test of line 88: the row contains [---], [:-:], [:--] or [--:]. *)
Definition looks_like_separator (line : str) : bool :=
  contains (lit "---") line || contains (lit ":-:") line
  || contains (lit ":--") line || contains (lit "--:") line.

(** The [for i, line in enumerate(all_rows)] loop of lines 86-90, from
    index [i] on: the index of the first separator-like row. *)
Fixpoint find_separator_idx (i : nat) (all_rows : list str) : option nat :=
  match all_rows with
  | [] => None
  | line :: rest =>
      if looks_like_separator line then Some i
      else find_separator_idx (S i) rest
  end.

(** [process_table(table_lines, keep_header)] *)
Definition process_table (table_lines : list str) (keep_header : bool) : list str :=
  if (length table_lines <=? 1)%nat then table_lines
  else if keep_header then
    if (length table_lines <=? 2)%nat then table_lines
    else
      match table_lines with
      | header :: separator :: data_rows => [header; separator] ++ rev data_rows
      | _ => table_lines (* excluded by the length test above *)
      end
  else
    if (length table_lines <=? 2)%nat then rev table_lines
    else
      let all_rows := rev table_lines in
      match find_separator_idx 0 all_rows with
      | Some separator_idx =>
          if negb (separator_idx =? 1)%nat then
            match all_rows !! separator_idx with
            | Some separator => insert_at 1 separator (pop_at separator_idx all_rows)
            | None => all_rows (* the index found is always in range *)
            end
          else all_rows
      | None => all_rows
      end.

(** A line is a table line when ['|' in line and line.strip()]: it holds a
    pipe and is not blank. *)
Definition is_table_line (line : str) : bool :=
  contains [PIPE] line && truthy (strip line).

(** The state of the scanning loop of [reverse_markdown_table]. *)
Record scan_state := {
  result : list str;
  in_table : bool;
  table_lines : list str;
}.

(** One iteration of the [while i < len(lines)] loop, lines 28-45. *)
Definition scan_step (keep_header : bool) (st : scan_state) (line : str) : scan_state :=
  if is_table_line line then
    if negb (in_table st)
    then {| result := result st; in_table := true; table_lines := [line] |}
    else {| result := result st; in_table := true;
            table_lines := table_lines st ++ [line] |}
  else
    let flushed :=
      if in_table st
      then {| result := result st ++ process_table (table_lines st) keep_header;
              in_table := false; table_lines := [] |}
      else st in
    {| result := result flushed ++ [line];
       in_table := in_table flushed; table_lines := table_lines flushed |}.

(** The final flush of lines 47-49. *)
Definition finish (keep_header : bool) (st : scan_state) : list str :=
  if in_table st && negb (bool_decide (table_lines st = []))
  then result st ++ process_table (table_lines st) keep_header
  else result st.

(** The loop over all lines, then the final flush. *)
Definition reverse_lines (keep_header : bool) (lines : list str) : list str :=
  finish keep_header
    (fold_left (scan_step keep_header) lines
       {| result := []; in_table := false; table_lines := [] |}).

(** [reverse_markdown_table(content, keep_header)] *)
Definition reverse_markdown_table (content : str) (keep_header : bool) : str :=
  join [NL] (reverse_lines keep_header (split NL content)).

(** The scanning loop read as a function of the lines not yet visited,
    for the proofs: [pending] is the table block being collected. *)
Fixpoint flush_blocks (keep_header : bool) (pending lines : list str) : list str :=
  match lines with
  | [] => process_table pending keep_header
  | l :: rest =>
      if is_table_line l then flush_blocks keep_header (pending ++ [l]) rest
      else process_table pending keep_header ++ l :: flush_blocks keep_header [] rest
  end.

End ReverseTable.

(** ** Exceptions, messages and the effects of a run *)

Module Run.
Import Py.

(** The text of an exception or of a printed line.  [Text] is a message the
    source spells out, [IntLiteral tok] the interpreter's own text for a
    failed [int(tok)], and [Cat pre m] the f-string [f"{pre}{m}"]. *)
Inductive message :=
| Text (s : str)
| IntLiteral (tok : str)
| Cat (pre : str) (m : message).

Inductive exn :=
| ValueError (msg : message).

(** What a run of a script did: its exit code, the files it wrote (in
    order, each under its path with the whole text written), and the
    [print] calls to the two streams. *)
Record outcome := {
  exit_code : Z;
  writes : list (str * str);
  stdout : list message;
  stderr : list message;
}.

(** How opening a path can fail: with [FileNotFoundError], or with any
    other exception; each with the text of the exception. *)
Inductive failure :=
| FileNotFound (msg : str)
| OtherFailure (msg : str).

Definition failure_text (f : failure) : str :=
  match f with
  | FileNotFound msg => msg
  | OtherFailure msg => msg
  end.

(** What the operating system does beside holding the text of the files.
    The map [fs] of a run holds the files that can be read as text.
    - [read_fault p], for a path [p] that is not in [fs]: [None] when
      nothing exists at [p], so that opening it raises
      [FileNotFoundError]; the text of the exception when something
      exists at [p] that cannot be read as text (a directory, a file
      without permission, bytes that are not UTF-8).
    - [write_fault p]: the failure of opening [p] for writing, when it
      fails (a missing directory, no permission); the file is then not
      touched.
    - [print_fault s]: the text of the exception when printing [s] to the
      standard output raises (a stream that cannot encode or take it).
      It is looked at for the [print] calls that a handler of the source
      guards; the other [print] calls are taken to succeed. *)
Record faults := {
  read_fault : str -> option str;
  write_fault : str -> option failure;
  print_fault : str -> option str;
}.

(** An operating system on which nothing fails. *)
Definition no_faults : faults :=
  {| read_fault := fun _ => None;
     write_fault := fun _ => None;
     print_fault := fun _ => None |}.

(** The file system, from paths to the text of the file, after the writes
    of a run. *)
Definition apply_writes (fs : gmap str str) (ws : list (str * str)) : gmap str str :=
  fold_left (fun m w => <[w.1 := w.2]> m) ws fs.

End Run.

(** ** reverse_table.py: the command line *)

Module ReverseTableScript.
Import Py Run ReverseTable.

(** The arguments [argparse] hands to [main]. *)
Record args := {
  input_file : str;
  output_file : option str;
  no_header : bool;
}.

Definition CHECK_MARK : char := 10003.   (* U+2713 *)

(** The file [main] writes: [args.output_file] when it is given and not
    empty, else the input file. *)
Definition target (a : args) : str :=
  match output_file a with
  | Some o => if truthy o then o else input_file a
  | None => input_file a
  end.

(** The line [main] prints when it has written the file (lines 137-142). *)
Definition success_line (a : args) : str :=
  let header_msg :=
    if negb (no_header a) then lit "with header preserved" else lit "including header" in
  if bool_decide (input_file a = target a)
  then [CHECK_MARK] ++ lit " Table rows reversed " ++ header_msg
       ++ lit " in " ++ input_file a
  else [CHECK_MARK] ++ lit " Table rows reversed " ++ header_msg
       ++ lit " and saved to " ++ target a.

(** What the handler of lines 144-146 does. *)
Definition not_found (a : args) (written : list (str * str)) : outcome :=
  {| exit_code := 1; writes := written;
     stdout := [Text (lit "Error: File '" ++ input_file a ++ lit "' not found.")];
     stderr := [] |}.

(** What the handler of lines 147-149 does, for an exception of text [e]. *)
Definition other_error (e : str) (written : list (str * str)) : outcome :=
  {| exit_code := 1; writes := written;
     stdout := [Text (lit "Error: " ++ e)];
     stderr := [] |}.

(** [main()] after [parser.parse_args()], on the operating system [os] and
    the file system [fs].  The file is read as text, so its line ends
    arrive as "\n".  The [try] block reads, writes and prints; a
    [FileNotFoundError] of the read or of the write reaches the first
    handler, any other exception of the read, the write or the [print] the
    second; both end the process with exit code 1. *)
Definition main (os : faults) (a : args) (fs : gmap str str) : outcome :=
  let keep_header := negb (no_header a) in
  match fs !! input_file a with
  | None =>
      match read_fault os (input_file a) with
      | None => not_found a []
      | Some e => other_error e []
      end
  | Some text =>
      let content := universal_newlines text in
      let modified_content := reverse_markdown_table content keep_header in
      match write_fault os (target a) with
      | Some (FileNotFound _) => not_found a []
      | Some (OtherFailure e) => other_error e []
      | None =>
          let written := [(target a, modified_content)] in
          match print_fault os (success_line a) with
          | Some e => other_error e written
          | None =>
              {| exit_code := 0; writes := written;
                 stdout := [Text (success_line a)]; stderr := [] |}
          end
      end
  end.

End ReverseTableScript.

(** ** reorder_columns.py *)

Module ReorderColumns.
Import Py Run.

(** The [for i, line in enumerate(lines[1:], start=1)] loop of
    [parse_frontmatter]: [frontmatter] is the list built so far and [rest]
    the lines not yet visited; [None] when the loop ends without
    returning. *)
Fixpoint scan_frontmatter (frontmatter rest : list str) : option (list str * list str) :=
  match rest with
  | [] => None
  | line :: rest' =>
      let frontmatter := frontmatter ++ [line] in
      if startswith (lit "---") (strip line)
      then Some (frontmatter, rest')
      else scan_frontmatter frontmatter rest'
  end.

(** [parse_frontmatter(lines)] *)
Definition parse_frontmatter (lines : list str) : list str * list str :=
  match lines with
  | [] => ([], lines)
  | first :: tail =>
      if negb (startswith (lit "---") (strip first)) then ([], lines)
      else match scan_frontmatter [first] tail with
           | Some r => r
           | None => ([], lines)
           end
  end.

(** [parts[1:]] when [parts[0].strip() == ''] (line 53). *)
Definition drop_blank_first (parts : list str) : list str :=
  match parts with
  | p :: ps => if bool_decide (strip p = []) then ps else parts
  | [] => parts
  end.

(** [parts[:-1]] when [parts[-1].strip() == ''] (line 55). *)
Definition drop_blank_last (parts : list str) : list str :=
  match last parts with
  | Some p => if bool_decide (strip p = []) then removelast parts else parts
  | None => parts
  end.

(** [parse_table_row(line)]: the cells and the line without its line end,
    or [None] for the pair [(None, None)]. *)
Definition parse_table_row (line : str) : option (list str * str) :=
  let original := rstrip_chars [NL; CR] line in
  if negb (contains [PIPE] original) then None
  else
    let stripped := strip original in
    if negb (startswith [PIPE] stripped) || negb (endswith [PIPE] stripped) then None
    else
      let parts := drop_blank_last (drop_blank_first (split PIPE original)) in
      match parts with
      | [] => None
      | _ => Some (parts, original)
      end.

(** [format_table_row(columns, original_line)] *)
Definition format_table_row (columns : list str) (original_line : str) : str :=
  [PIPE] ++ join [PIPE] columns ++ [PIPE].

(** The comprehension [[columns[i] for i in order]]; [None] is the
    [IndexError] of an index out of range. *)
Fixpoint pick (columns : list str) (order : list Z) : option (list str) :=
  match order with
  | [] => Some []
  | i :: order' =>
      match index columns i with
      | None => None
      | Some c =>
          match pick columns order' with
          | None => None
          | Some cs => Some (c :: cs)
          end
      end
  end.

(** [reorder_columns(columns, order)] *)
Definition reorder_columns (columns : list str) (order : list Z) : exn + list str :=
  match pick columns order with
  | Some cs => inr cs
  | None =>
      inl (ValueError (Cat (lit "Invalid column index in order: ")
                           (Text (lit "list index out of range"))))
  end.

(** The message of lines 88-91. *)
Definition column_count_mismatch (columns order : nat) : message :=
  Text (lit "Column count mismatch: table has " ++ str_of_nat columns
        ++ lit " columns, but order specifies " ++ str_of_nat order
        ++ lit " columns").

(** The [for line in table_lines] loop of [process_table], with the
    [result] list built so far. *)
Fixpoint process_rows (result table_lines : list str) (order : list Z) : exn + list str :=
  match table_lines with
  | [] => inr result
  | line :: rest =>
      match parse_table_row line with
      | None => process_rows (result ++ [line]) rest order
      | Some (columns, original) =>
          if negb (length columns =? length order)%nat
          then inl (ValueError (column_count_mismatch (length columns) (length order)))
          else
            match reorder_columns columns order with
            | inl e => inl e
            | inr reordered =>
                process_rows (result ++ [format_table_row reordered original ++ [NL]])
                             rest order
            end
      end
  end.

(** [process_table(table_lines, order)] *)
Definition process_table (table_lines : list str) (order : list Z) : exn + list str :=
  match table_lines with
  | [] => inr table_lines
  | _ => process_rows [] table_lines order
  end.

(** [find_and_process_tables(lines, order)].  [find_loop] is the outer
    [while]: its argument is [lines[i:]], with the [result] built so far.
    [inner] is the inner [while] of lines 114-119 on [lines[i:]]: it
    collects the table lines, and at its [break] (or at the end of the
    input) the table is processed and the outer loop goes on with the
    lines left. *)
Fixpoint find_loop (order : list Z) (result : list str) (lines : list str)
  : exn + list str :=
  match lines with
  | [] => inr result
  | line :: after =>
      match parse_table_row line with
      | None => find_loop order (result ++ [line]) after
      | Some _ =>
          (fix inner (table_lines : list str) (rest : list str) : exn + list str :=
             match rest with
             | current :: rest' =>
                 match parse_table_row current with
                 | Some _ => inner (table_lines ++ [current]) rest'
                 | None =>
                     match process_table table_lines order with
                     | inl e => inl e
                     | inr processed_table =>
                         find_loop order (result ++ processed_table) rest
                     end
                 end
             | [] =>
                 match process_table table_lines order with
                 | inl e => inl e
                 | inr processed_table => inr (result ++ processed_table)
                 end
             end) [line] after
      end
  end.

Definition find_and_process_tables (lines : list str) (order : list Z) : exn + list str :=
  find_loop order [] lines.

(** The arguments [argparse] hands to [main]. *)
Record args := {
  file : str;
  order : str;
  output : option str;
  dry_run : bool;
}.

Section Main.

(** The builtin [int] on a [str]; [None] when it raises [ValueError]. *)
Variable int_ : str -> option Z.

(** The comprehension [[int(x) for x in order_str.split()]]. *)
Fixpoint ints (tokens : list str) : exn + list Z :=
  match tokens with
  | [] => inr []
  | x :: tokens' =>
      match int_ x with
      | None => inl (ValueError (IntLiteral x))
      | Some n =>
          match ints tokens' with
          | inl e => inl e
          | inr ns => inr (n :: ns)
          end
      end
  end.

(** The handler of lines 139-140. *)
Definition invalid_format (e : exn) : exn :=
  match e with
  | ValueError msg => ValueError (Cat (lit "Invalid column order format: ") msg)
  end.

(** [parse_column_order(order_str)] *)
Definition parse_column_order (order_str : str) : exn + list Z :=
  let order_str := replace COMMA SPACE order_str in
  match ints (split_ws order_str) with
  | inl e => inl (invalid_format e)
  | inr order =>
      if negb (bool_decide (sorted order = range (length order)))
      then inl (invalid_format (ValueError (Text (lit
             "Column order must be a permutation of column indices starting from 0"))))
      else inr order
  end.

(** The operating system of the run. *)
Variable os : faults.

(** The file [main] writes: [args.output or args.file]. *)
Definition target (a : args) : str :=
  match output a with
  | Some o => if truthy o then o else file a
  | None => file a
  end.

(** The line [main] prints when it has written the file (line 209). *)
Definition success_line (a : args) : str :=
  lit "Successfully reordered columns in " ++ target a.

(** [main()] after [parser.parse_args()], on the operating system [os] and
    the file system [fs].  Reading has two handlers: one for
    [FileNotFoundError] and one for any other exception (lines 185-190);
    the handler of lines 210-212 takes every exception of the write and of
    the [print] after it. *)
Definition main (a : args) (fs : gmap str str) : outcome :=
  match parse_column_order (order a) with
  | inl (ValueError e) =>
      {| exit_code := 1; writes := []; stdout := [];
         stderr := [Cat (lit "Error: ") e] |}
  | inr order =>
      match fs !! file a with
      | None =>
          match read_fault os (file a) with
          | None =>
              {| exit_code := 1; writes := []; stdout := [];
                 stderr := [Text (lit "Error: File '" ++ file a ++ lit "' not found")] |}
          | Some e =>
              {| exit_code := 1; writes := []; stdout := [];
                 stderr := [Text (lit "Error reading file: " ++ e)] |}
          end
      | Some text =>
          let lines := readlines text in
          let '(frontmatter, content) := parse_frontmatter lines in
          match find_and_process_tables content order with
          | inl (ValueError e) =>
              {| exit_code := 1; writes := []; stdout := [];
                 stderr := [Cat (lit "Error processing table: ") e] |}
          | inr processed_content =>
              let result := frontmatter ++ processed_content in
              if dry_run a then
                {| exit_code := 0; writes := [];
                   stdout := [Text (concat_str result)]; stderr := [] |}
              else
                match write_fault os (target a) with
                | Some f =>
                    {| exit_code := 1; writes := []; stdout := [];
                       stderr := [Text (lit "Error writing file: " ++ failure_text f)] |}
                | None =>
                    let written := [(target a, concat_str result)] in
                    match print_fault os (success_line a) with
                    | Some e =>
                        {| exit_code := 1; writes := written; stdout := [];
                           stderr := [Text (lit "Error writing file: " ++ e)] |}
                    | None =>
                        {| exit_code := 0; writes := written;
                           stdout := [Text (success_line a)]; stderr := [] |}
                    end
                end
          end
      end
  end.

End Main.

(** [re.match(r'^:?-+:?$', p)] on a stripped cell: an optional colon,
    one or more dashes, an optional colon, and nothing else. *)
Definition matches_dashes (p : str) : bool :=
  let after_colon :=
    match p with
    | c :: r => if c =? 58 (* ':' *) then r else p
    | [] => p
    end in
  let after_dashes := dropwhile (fun c => c =? 45 (* '-' *)) after_colon in
  negb (length after_dashes =? length after_colon)%nat
  && (bool_decide (after_dashes = []) || bool_decide (after_dashes = [58])).

(** [is_table_separator(line)]; [parts] is [stripped.split('|')[1:-1]]
    with every part stripped, and the test runs over the parts that are
    not empty. *)
Definition is_table_separator (line : str) : bool :=
  let stripped := strip line in
  if negb (startswith [PIPE] stripped) || negb (endswith [PIPE] stripped) then false
  else
    let parts := List.map strip (removelast (tl (split PIPE stripped))) in
    forallb matches_dashes (List.filter truthy parts).

(** What one line of the input becomes in a successful scan: a line that
    is not a table row is kept, and a table row with as many cells as the
    order has indices becomes its reordered cells between pipes, with a
    line end. *)
Definition row_output (order : list Z) (line out : str) : Prop :=
  match parse_table_row line with
  | None => out = line
  | Some (columns, original) =>
      length columns = length order /\
      exists reordered,
        pick columns order = Some reordered /\
        out = format_table_row reordered original ++ [NL]
  end.

(** *** Notions of the specification *)

(** The position of the first [k] in [order]. *)
Fixpoint index_of (k : Z) (order : list Z) : nat :=
  match order with
  | [] => O
  | i :: order' => if (i =? k)%Z then O else S (index_of k order')
  end.

(** The inverse of a permutation [order] of [0..n-1]: at position [k] it
    has the position of [k] in [order]. *)
Definition inverse_permutation (order : list Z) : list Z :=
  List.map (fun k => Z.of_nat (index_of k order)) (range (length order)).

(** The comma- or space-separated tokens of an order string. *)
Definition tokens (order_str : str) : list str :=
  fields_from (fun c => isspace c || (c =? COMMA)) [] order_str.

End ReorderColumns.

(** ** split_by_year.py *)

Module SplitByYear.
Import Py Run.

(** A key of [rows_by_year]: a year, or the string ['unknown']. *)
Inductive key :=
| Year (y : Z)
| Unknown.

#[export] Instance key_eq_dec : EqDecision key.
Proof. solve_decision. Defined.

(** [rows_by_year], a [defaultdict(list)]: the keys in insertion order,
    each with its rows. *)
Definition dict := list (key * list str).

(** [rows_by_year[k].append(line)] *)
Fixpoint dict_append (k : key) (line : str) (d : dict) : dict :=
  match d with
  | [] => [(k, [line])]
  | (k', rows) :: d' =>
      if bool_decide (k = k') then (k', rows ++ [line]) :: d'
      else (k', rows) :: dict_append k line d'
  end.

(** [rows_by_year[k]] for a key that is present (else the empty list a
    [defaultdict] makes). *)
Fixpoint dict_get (k : key) (d : dict) : list str :=
  match d with
  | [] => []
  | (k', rows) :: d' => if bool_decide (k = k') then rows else dict_get k d'
  end.

(** [k in rows_by_year] *)
Definition dict_mem (k : key) (d : dict) : bool :=
  existsb (fun kv => bool_decide (k = kv.1)) d.

(** The years among the keys: [[y for y in rows_by_year.keys() if y != 'unknown']]. *)
Fixpoint year_keys (d : dict) : list Z :=
  match d with
  | [] => []
  | (Year y, _) :: d' => y :: year_keys d'
  | (Unknown, _) :: d' => year_keys d'
  end.

(** [str(n)] for an integer. *)
Definition str_of_Z (n : Z) : str :=
  if (n <? 0)%Z then 45 :: str_of_N (Z.to_N (- n)) else str_of_N (Z.to_N n).

(** The metadata loop of lines 52-62 from line [i] on: the metadata lines
    and [metadata_end]. *)
Fixpoint scan_metadata (i : nat) (lines : list str)
    (metadata_lines : list str) (in_metadata : bool) : list str * nat :=
  match lines with
  | [] => (metadata_lines, O)
  | line :: rest =>
      if bool_decide (strip line = lit "---") then
        if negb in_metadata
        then scan_metadata (S i) rest (metadata_lines ++ [line]) true
        else (metadata_lines ++ [line], S i)
      else if in_metadata
        then scan_metadata (S i) rest (metadata_lines ++ [line]) in_metadata
        else scan_metadata (S i) rest metadata_lines in_metadata
  end.

(** The test of line 72. *)
Definition is_header (line : str) : bool :=
  contains [PIPE] line && contains (lit "Name") line && contains (lit "date") line.

(** The header search of lines 70-77 over [lines[i:]]: the index and the
    text of the first header line. *)
Fixpoint find_header (i : nat) (rest : list str) : option (nat * str) :=
  match rest with
  | [] => None
  | line :: rest' =>
      if is_header line then Some (i, line) else find_header (S i) rest'
  end.

(** A data row, as the loop of lines 85-103 takes it: a line that is not
    blank, starts with a pipe once stripped, and splits on the pipe into at
    least three cells. *)
Definition is_data_row (line : str) : bool :=
  truthy (strip line) && startswith [PIPE] (strip line)
  && (3 <=? length (split PIPE line))%nat.

(** The date cell of a row: the stripped cell of index 2. *)
Definition date_cell (line : str) : option str :=
  strip <$> (split PIPE line !! 2%nat).

(** What an output file starts with: the metadata lines and a blank line
    when there are metadata lines, then the header line. *)
Definition file_head (metadata_lines : list str) (table_header : str) : str :=
  match metadata_lines with
  | [] => []
  | _ => concat_str metadata_lines ++ [NL]
  end ++ table_header.

Section Script.

(** [datetime.strptime(s, "%B %d, %Y").year]; [None] when [strptime]
    raises [ValueError]. *)
Variable strptime_year : str -> option Z.
(** [Path(input_file).stem] *)
Variable path_stem : str -> str.
(** [Path(input_file).parent / name], as the path it names. *)
Variable path_sibling : str -> str -> str.
(** The operating system of the run. *)
Variable os : faults.

(** [parse_date(date_str)] *)
Definition parse_date (date_str : str) : option Z :=
  if negb (truthy date_str) || bool_decide (strip date_str = []) then None
  else
    let date_str :=
      if contains [ARROW] date_str
      then strip (hd [] (split ARROW date_str))
      else date_str in
    strptime_year (strip date_str).

(** The body of the loop of lines 85-103 for one line. *)
Definition bucket_row (rows_by_year : dict) (line : str) : dict :=
  if negb (truthy (strip line)) || negb (startswith [PIPE] (strip line))
  then rows_by_year
  else
    let columns := List.map strip (split PIPE line) in
    if (length columns <? 3)%nat then rows_by_year
    else
      let date_column := if (2 <? length columns)%nat then nth 2 columns [] else [] in
      match parse_date date_column with
      | Some year =>
          if bool_decide (year = 0%Z)
          then dict_append Unknown line rows_by_year
          else dict_append (Year year) line rows_by_year
      | None => dict_append Unknown line rows_by_year
      end.

(** The key a data row is filed under (lines 96-103). *)
Definition row_key (line : str) : key :=
  let columns := List.map strip (split PIPE line) in
  match parse_date (if (2 <? length columns)%nat then nth 2 columns [] else []) with
  | Some year => if bool_decide (year = 0%Z) then Unknown else Year year
  | None => Unknown
  end.

(** The data rows among [lines] that are filed under [k], in their order. *)
Definition bucket_of (k : key) (lines : list str) : list str :=
  List.filter (fun l => is_data_row l && bool_decide (row_key l = k)) lines.

(** The name of the file of a key (lines 115-118). *)
Definition output_name (base_name : str) (year : key) : str :=
  match year with
  | Unknown => base_name ++ lit "_unknown_dates.md"
  | Year y => base_name ++ lit "_" ++ str_of_Z y ++ lit ".md"
  end.

(** The file written for a key (lines 114-129): its path and its text. *)
Definition year_file (input_file : str) (metadata_lines : list str)
    (table_header separator : str) (rows_by_year : dict) (year : key) : str * str :=
  (path_sibling input_file (output_name (path_stem input_file) year),
   file_head metadata_lines table_header ++ separator
   ++ concat_str (dict_get year rows_by_year)).

(** The line printed for a key (line 131). *)
Definition created_line (input_file : str) (rows_by_year : dict) (year : key) : message :=
  Text (lit "Created: "
        ++ path_sibling input_file (output_name (path_stem input_file) year)
        ++ lit " (" ++ str_of_nat (length (dict_get year rows_by_year)) ++ lit " rows)").

(** The writing loop of lines 113-131 over [sorted_years], after the
    [written] files and [printed] lines so far.  [f.write(None)] raises
    [TypeError], which nothing catches: the file then holds what was
    written before and the process ends with exit code 1. *)
Fixpoint write_files (input_file : str) (metadata_lines : list str)
    (table_header : str) (table_separator : option str) (rows_by_year : dict)
    (sorted_years : list key) (written : list (str * str))
    (printed : list message) : outcome + (list (str * str) * list message) :=
  match sorted_years with
  | [] => inr (written, printed)
  | year :: years =>
      match table_separator with
      | None =>
          let output_file :=
            path_sibling input_file (output_name (path_stem input_file) year) in
          inl {| exit_code := 1;
                 writes := written
                   ++ [(output_file, file_head metadata_lines table_header)];
                 stdout := printed;
                 stderr := [Text (lit "TypeError: write() argument must be str, not None")] |}
      | Some separator =>
          write_files input_file metadata_lines table_header table_separator
            rows_by_year years
            (written ++ [year_file input_file metadata_lines table_header
                           separator rows_by_year year])
            (printed ++ [created_line input_file rows_by_year year])
      end
  end.

(** [split_markdown_by_year(input_file)] on the operating system [os] and
    the file system [fs]; the exit code is the one the process ends with
    when the function is the last thing it runs.  [input_path.exists()]
    holds for a file of [fs] and for a path that exists without being
    readable as text; for such a path [open] or [readlines] raises, and
    nothing catches it: the process ends with exit code 1 and the
    exception on the standard error.  Writing the year files is taken to
    succeed. *)
Definition split_markdown_by_year (input_file : str) (fs : gmap str str) : outcome :=
  match fs !! input_file with
  | None =>
      match read_fault os input_file with
      | None =>
          {| exit_code := 0; writes := [];
             stdout := [Text (lit "Error: File '" ++ input_file ++ lit "' not found.")];
             stderr := [] |}
      | Some e =>
          {| exit_code := 1; writes := []; stdout := []; stderr := [Text e] |}
      end
  | Some text =>
      let lines := readlines text in
      let '(metadata_lines, metadata_end) := scan_metadata 0 lines [] false in
      let content_start := if (0 <? metadata_end)%nat then metadata_end else O in
      match find_header content_start (drop content_start lines) with
      | None =>
          {| exit_code := 0; writes := [];
             stdout := [Text (lit
               "Error: Could not find table header with 'Name' and 'date' columns.")];
             stderr := [] |}
      | Some (table_start, table_header) =>
          let table_separator := lines !! (table_start + 1)%nat in
          let rows_by_year := fold_left bucket_row (drop (table_start + 2) lines) [] in
          let sorted_years :=
            List.map Year (sorted (year_keys rows_by_year))
            ++ (if dict_mem Unknown rows_by_year then [Unknown] else []) in
          match write_files input_file metadata_lines table_header table_separator
                  rows_by_year sorted_years [] [] with
          | inl crashed => crashed
          | inr (written, printed) =>
              {| exit_code := 0; writes := written;
                 stdout := printed
                   ++ [Text ([NL] ++ lit "Total years: "
                             ++ str_of_nat (length (year_keys rows_by_year)))]
                   ++ (if dict_mem Unknown rows_by_year
                       then [Text (lit "Rows with unknown dates: "
                                   ++ str_of_nat (length (dict_get Unknown rows_by_year)))]
                       else []);
                 stderr := [] |}
          end
      end
  end.

(** The [if __name__ == "__main__"] block on [sys.argv]. *)
Definition script (argv : list str) (fs : gmap str str) : outcome :=
  if negb (length argv =? 2)%nat then
    {| exit_code := 1; writes := [];
       stdout := [Text (lit "Usage: python3 split_by_year.py <markdown_file>")];
       stderr := [] |}
  else
    match argv !! 1%nat with
    | Some input_file => split_markdown_by_year input_file fs
    | None => {| exit_code := 1; writes := []; stdout := []; stderr := [] |}
    end.

End Script.

(** *** Reference instances of the library functions, for evaluation *)

Definition lower (c : char) : char :=
  if (65 <=? c) && (c <=? 90) then c + 32 else c.

Definition month_names : list string :=
  ["january"; "february"; "march"; "april"; "may"; "june"; "july";
   "august"; "september"; "october"; "november"; "december"]%string.

(** The month (from 1) whose name [s] starts with, and what follows it. *)
Fixpoint match_month (m : nat) (names : list string) (s : str) : option (nat * str) :=
  match names with
  | [] => None
  | name :: names' =>
      if startswith (lit name) (List.map lower s)
      then Some (m, drop (length (lit name)) s)
      else match_month (S m) names' s
  end.

Definition is_leap (y : Z) : bool :=
  ((y mod 4 =? 0) && negb (y mod 100 =? 0) || (y mod 400 =? 0))%Z.

Definition days_in_month (y : Z) (m : nat) : Z :=
  match m with
  | 2%nat => if is_leap y then 29 else 28
  | 4%nat | 6%nat | 9%nat | 11%nat => 30
  | _ => 31
  end%Z.

Definition digits_value (ds : str) : option Z :=
  fold_left (fun acc c => a ← acc; d ← ascii_digit c; Some (10 * a + d)%Z) ds (Some 0%Z).

(** [strptime(s, "%B %d, %Y").year] in the C locale, on ASCII text. *)
Definition strptime_year_c (s : str) : option Z :=
  '(m, s1) ← match_month 1 month_names s;
  let s2 := lstrip s1 in
  if bool_decide (s2 = s1) then None else
  let '(ds, s3) :=
    match s2 with
    | a :: b :: rest =>
        if bool_decide (b = COMMA) then ([a], b :: rest) else ([a; b], rest)
    | _ => ([], s2)
    end in
  d ← digits_value ds;
  if bool_decide (ds = []) || bool_decide (ds = lit "0") || bool_decide (ds = lit "00")
  then None else
  match s3 with
  | c :: s4 =>
      if negb (c =? COMMA) then None else
      let s5 := lstrip s4 in
      if bool_decide (s5 = s4) || negb (length s5 =? 4)%nat then None else
      y ← digits_value s5;
      if ((1 <=? y) && (1 <=? d) && (d <=? days_in_month y m))%Z then Some y else None
  | [] => None
  end.

(** The stem and the siblings of a POSIX path of the form [dir/name.ext]. *)
Fixpoint last_index (c : char) (i : nat) (s : str) : option nat :=
  match s with
  | [] => None
  | x :: s' =>
      match last_index c (S i) s' with
      | Some j => Some j
      | None => if x =? c then Some i else None
      end
  end.

Definition posix_name (p : str) : str :=
  match last_index 47 0 p with Some i => drop (S i) p | None => p end.
Definition posix_dir (p : str) : str :=
  match last_index 47 0 p with Some i => take (S i) p | None => [] end.
Definition posix_stem (p : str) : str :=
  let name := posix_name p in
  match last_index 46 0 name with
  | Some (S i) => if (S (S i) <? length name)%nat then take (S i) name else name
  | _ => name
  end.
Definition posix_sibling (p name : str) : str := posix_dir p ++ name.

End SplitByYear.

(** * Properties of the runtime operations *)

Module PyFacts.
Import Py.

Lemma digits_fuel_value (fuel : nat) (n : N) (acc : str) :
  n < 10 ^ N.of_nat fuel ->
  fold_left (fun a c => 10 * a + (c - 48)) (digits_fuel fuel n acc) 0
  = fold_left (fun a c => 10 * a + (c - 48)) acc n.
Proof.
  revert n acc. induction fuel as [|fuel IH]; intros n acc Hn.
  - simpl in Hn. assert (n = 0) by lia. subst n. reflexivity.
  - cbn [digits_fuel].
    destruct (N.ltb_spec n 10) as [Hsmall|Hbig].
    + cbn [fold_left]. f_equal.
      rewrite N.mod_small by exact Hsmall.
      rewrite (N.add_comm 48), N.add_sub. reflexivity.
    + rewrite IH.
      * cbn [fold_left]. f_equal.
        rewrite (N.add_comm 48), N.add_sub.
        symmetry. apply N.div_mod. discriminate.
      * rewrite Nat2N.inj_succ, N.pow_succ_r' in Hn.
        apply N.Div0.div_lt_upper_bound. exact Hn.
Qed.

(** The digits printed for a number are the digits of that number. *)
Lemma str_of_N_value (n : N) : decimal_value (str_of_N n) = n.
Proof.
  unfold decimal_value, str_of_N. rewrite digits_fuel_value; [reflexivity|].
  rewrite Nat2N.inj_succ, N2Nat.id.
  destruct (N.eq_dec n 0) as [->|Hne]; [reflexivity|].
  destruct (N.log2_spec n) as (_ & Hlt); [lia|].
  eapply N.lt_le_trans; [exact Hlt|].
  apply N.pow_le_mono_l. lia.
Qed.

Lemma digits_fuel_digits (fuel : nat) (n : N) (acc : str) :
  Forall (fun c => 48 <= c /\ c <= 57) acc ->
  Forall (fun c => 48 <= c /\ c <= 57) (digits_fuel fuel n acc).
Proof.
  revert n acc. induction fuel as [|fuel IH]; intros n acc Hacc; [exact Hacc|].
  cbn [digits_fuel].
  assert (Hd : Forall (fun c => 48 <= c /\ c <= 57) ((48 + n mod 10) :: acc)).
  { constructor; [|exact Hacc].
    assert (Hm : n mod 10 < 10) by (apply N.mod_upper_bound; discriminate).
    generalize dependent (n mod 10). intros m Hm. split; lia. }
  destruct (n <? 10); [exact Hd | apply IH, Hd].
Qed.

Lemma digits_fuel_not_nil (fuel : nat) (n : N) (acc : str) :
  digits_fuel (S fuel) n acc <> [].
Proof.
  revert n acc. induction fuel as [|fuel IH]; intros n acc.
  - cbn [digits_fuel]. destruct (n <? 10); discriminate.
  - cbn [digits_fuel]. destruct (n <? 10); [discriminate|].
    apply (IH (n / 10) ((48 + n mod 10) :: acc)).
Qed.

(** What is printed for a number is a decimal numeral of that number. *)
Lemma str_of_nat_decimal (n : nat) : is_decimal_of (str_of_nat n) (N.of_nat n).
Proof.
  unfold is_decimal_of, str_of_nat. split; [|split].
  - apply digits_fuel_not_nil.
  - apply digits_fuel_digits. constructor.
  - apply str_of_N_value.
Qed.

End PyFacts.

(** * Properties of reverse_table.py *)

Module ReverseTableFacts.
Import Py ReverseTable.

Lemma find_separator_idx_none (rows : list str) (i : nat) :
  Forall (fun r => looks_like_separator r = false) rows ->
  find_separator_idx i rows = None.
Proof.
  intros H. revert i. induction H as [|r rows Hr _ IH]; intros i; simpl.
  - reflexivity.
  - rewrite Hr. apply IH.
Qed.

Lemma find_separator_idx_first (before after : list str) (sep : str) (i : nat) :
  Forall (fun r => looks_like_separator r = false) before ->
  looks_like_separator sep = true ->
  find_separator_idx i (before ++ sep :: after) = Some (i + length before)%nat.
Proof.
  intros H Hsep. revert i. induction H as [|r before Hr _ IH]; intros i; simpl.
  - rewrite Hsep. f_equal. lia.
  - rewrite Hr, IH. f_equal. lia.
Qed.

Lemma pop_at_middle {A} (before after : list A) (x : A) :
  pop_at (length before) (before ++ x :: after) = before ++ after.
Proof.
  unfold pop_at. rewrite take_app_length.
  replace (S (length before)) with (length (before ++ [x])) by (rewrite length_app; simpl; lia).
  rewrite (cons_middle x before after), app_assoc, drop_app_length. reflexivity.
Qed.

Lemma lookup_middle {A} (before after : list A) (x : A) :
  (before ++ x :: after) !! length before = Some x.
Proof. apply list_lookup_middle. reflexivity. Qed.

(** The rows a block is made of stay the same rows, in either mode. *)
Lemma process_table_perm (rows : list str) (keep_header : bool) :
  Permutation (process_table rows keep_header) rows.
Proof.
  unfold process_table.
  destruct (length rows <=? 1)%nat; [reflexivity|].
  destruct keep_header.
  - destruct (length rows <=? 2)%nat; [reflexivity|].
    destruct rows as [|h [|s data]]; try reflexivity.
    simpl. do 2 constructor. symmetry. apply Permutation_rev.
  - destruct (length rows <=? 2)%nat; [symmetry; apply Permutation_rev|].
    assert (Hrev : Permutation (rev rows) rows) by (symmetry; apply Permutation_rev).
    destruct (find_separator_idx 0 (rev rows)) as [idx|] eqn:Hidx; [|exact Hrev].
    destruct (negb (idx =? 1)%nat); [|exact Hrev].
    destruct (rev rows !! idx) as [sep|] eqn:Hsep; [|exact Hrev].
    etransitivity; [|exact Hrev]. clear Hrev Hidx.
    apply list_elem_of_split_length in Hsep as (before & after & Heq & Hlen).
    rewrite Heq. subst idx. rewrite pop_at_middle.
    unfold insert_at.
    etransitivity; [symmetry; apply Permutation_middle|].
    rewrite take_drop. apply Permutation_middle.
Qed.

(** Keep-header processing undoes itself. *)
Lemma process_table_keep_header_twice (rows : list str) :
  process_table (process_table rows true) true = rows.
Proof.
  destruct rows as [|h [|s [|d data]]]; try reflexivity.
  assert (Hshape : process_table (h :: s :: d :: data) true
                   = h :: s :: rev (d :: data)) by reflexivity.
  rewrite Hshape.
  destruct (rev (d :: data)) as [|d' data'] eqn:Hrev.
  { apply (f_equal length) in Hrev. rewrite length_rev in Hrev. discriminate. }
  change (h :: s :: rev (d' :: data') = h :: s :: d :: data).
  rewrite <- Hrev, rev_involutive. reflexivity.
Qed.

Lemma scan_flush (keep_header : bool) (lines : list str) (st : scan_state) :
  (in_table st = false -> table_lines st = []) ->
  finish keep_header (fold_left (scan_step keep_header) lines st)
  = result st ++ flush_blocks keep_header (table_lines st) lines.
Proof.
  revert st. induction lines as [|l lines IH]; intros st Hinv; simpl.
  - unfold finish. destruct (in_table st) eqn:Hin; simpl.
    + case_bool_decide as Hnil; simpl; [|reflexivity].
      rewrite Hnil. simpl. rewrite app_nil_r. reflexivity.
    + rewrite (Hinv eq_refl). simpl. rewrite app_nil_r. reflexivity.
  - unfold scan_step at 2. destruct (is_table_line l) eqn:Hl.
    + destruct (in_table st) eqn:Hin; simpl; rewrite IH by (simpl; discriminate); simpl.
      * reflexivity.
      * rewrite (Hinv eq_refl). reflexivity.
    + destruct (in_table st) eqn:Hin; simpl.
      * rewrite IH by (simpl; reflexivity). simpl.
        rewrite <- !app_assoc. reflexivity.
      * rewrite IH by (simpl; intros _; apply Hinv; reflexivity). simpl.
        rewrite (Hinv eq_refl). simpl. rewrite <- !app_assoc. reflexivity.
Qed.

Lemma reverse_lines_flush (keep_header : bool) (lines : list str) :
  reverse_lines keep_header lines = flush_blocks keep_header [] lines.
Proof.
  unfold reverse_lines.
  exact (scan_flush keep_header lines
           {| result := []; in_table := false; table_lines := [] |} (fun _ => eq_refl)).
Qed.

Lemma flush_blocks_perm (keep_header : bool) (lines pending : list str) :
  Permutation (flush_blocks keep_header pending lines) (pending ++ lines).
Proof.
  revert pending. induction lines as [|l lines IH]; intros pending; simpl.
  - rewrite app_nil_r. apply process_table_perm.
  - destruct (is_table_line l).
    + rewrite IH, <- app_assoc. reflexivity.
    + apply Permutation_app; [apply process_table_perm|].
      constructor. apply (IH []).
Qed.

Lemma flush_blocks_table_prefix (keep_header : bool) (block rest pending : list str) :
  Forall (fun l => is_table_line l = true) block ->
  flush_blocks keep_header pending (block ++ rest)
  = flush_blocks keep_header (pending ++ block) rest.
Proof.
  intros H. revert pending. induction H as [|l block Hl _ IH]; intros pending; simpl.
  - rewrite app_nil_r. reflexivity.
  - rewrite Hl, IH, <- app_assoc. reflexivity.
Qed.

Lemma process_table_keeps_table_lines (rows : list str) (keep_header : bool) :
  Forall (fun l => is_table_line l = true) rows ->
  Forall (fun l => is_table_line l = true) (process_table rows keep_header).
Proof.
  intros H. eapply Permutation_Forall; [|exact H].
  symmetry. apply process_table_perm.
Qed.

(** Scanning the scanned lines again gives the lines back. *)
Lemma flush_blocks_twice (lines pending : list str) :
  Forall (fun l => is_table_line l = true) pending ->
  flush_blocks true [] (flush_blocks true pending lines) = pending ++ lines.
Proof.
  revert pending. induction lines as [|l lines IH]; intros pending Hp; simpl.
  - rewrite <- (app_nil_r (process_table pending true)).
    rewrite flush_blocks_table_prefix by (apply process_table_keeps_table_lines, Hp).
    simpl. rewrite process_table_keep_header_twice, app_nil_r. reflexivity.
  - destruct (is_table_line l) eqn:Hl.
    + rewrite IH, <- app_assoc; [reflexivity|].
      apply Forall_app. split; [exact Hp | constructor; [exact Hl | constructor]].
    + rewrite flush_blocks_table_prefix by (apply process_table_keeps_table_lines, Hp).
      simpl. rewrite Hl, process_table_keep_header_twice.
      rewrite (IH [] (List.Forall_nil _)). reflexivity.
Qed.

(** [split] and [join] on the line separator. *)
Lemma split_not_nil (c : char) (s : str) : split c s <> [].
Proof.
  destruct s as [|x s]; simpl; [discriminate|].
  destruct (x =? c); [discriminate|].
  destruct (split c s); discriminate.
Qed.

Lemma split_without_sep (c : char) (s : str) :
  Forall (fun l => ~ In c l) (split c s).
Proof.
  induction s as [|x s IH]; simpl.
  - constructor; [intros [] | constructor].
  - destruct (N.eqb_spec x c) as [->|Hne].
    + constructor; [intros [] | exact IH].
    + destruct (split c s) as [|h t]; [repeat constructor; intros [?|[]]; congruence|].
      inversion IH as [|? ? Hh Ht]; subst.
      constructor; [|exact Ht].
      intros [?|?]; [congruence | contradiction].
Qed.

Lemma join_split (c : char) (s : str) : join [c] (split c s) = s.
Proof.
  induction s as [|x s IH]; simpl; [reflexivity|].
  destruct (N.eqb_spec x c) as [->|Hne].
  - pose proof (split_not_nil c s) as Hnn.
    destruct (split c s) as [|h t]; [contradiction|].
    simpl in *. rewrite IH. reflexivity.
  - pose proof (split_not_nil c s) as Hnn.
    destruct (split c s) as [|h t]; [contradiction|].
    rewrite <- IH. destruct t; reflexivity.
Qed.

Lemma split_line (c : char) (l : str) :
  ~ In c l -> split c l = [l].
Proof.
  induction l as [|x l IH]; intros Hc; simpl; [reflexivity|].
  destruct (N.eqb_spec x c) as [->|Hne]; [exfalso; apply Hc; left; reflexivity|].
  rewrite IH by (intros ?; apply Hc; right; assumption). reflexivity.
Qed.

Lemma split_line_then (c : char) (l rest : str) :
  ~ In c l -> split c (l ++ c :: rest) = l :: split c rest.
Proof.
  induction l as [|x l IH]; intros Hc; simpl.
  - rewrite N.eqb_refl. reflexivity.
  - destruct (N.eqb_spec x c) as [->|Hne]; [exfalso; apply Hc; left; reflexivity|].
    rewrite IH by (intros ?; apply Hc; right; assumption). reflexivity.
Qed.

Lemma split_join (c : char) (ls : list str) :
  ls <> [] -> Forall (fun l => ~ In c l) ls -> split c (join [c] ls) = ls.
Proof.
  intros Hnn H. induction H as [|l ls Hl Hls IH]; [contradiction|].
  destruct ls as [|l' ls'].
  - simpl. apply split_line, Hl.
  - change (join [c] (l :: l' :: ls')) with (l ++ c :: join [c] (l' :: ls')).
    rewrite split_line_then by exact Hl.
    rewrite IH by discriminate. reflexivity.
Qed.

(** C2.  Keep-header reversal: a block of at most two rows is returned
    unchanged; a longer block becomes its rows 0 and 1 followed by rows 2
    to the end in reversed order; so the first two rows of a block with at
    least two rows are the same before and after. *)
Theorem keep_header_reversal (rows : list str) :
  ((length rows <= 2)%nat -> process_table rows true = rows) /\
  ((2 < length rows)%nat ->
     process_table rows true = take 2 rows ++ rev (drop 2 rows)) /\
  ((2 <= length rows)%nat ->
     take 2 (process_table rows true) = take 2 rows).
Proof.
  destruct rows as [|h [|s [|d data]]]; simpl length;
    repeat split; intros; try lia; reflexivity.
Qed.

Lemma keep_header_reversal_witness :
  let rows := [lit "| Name | date |"; lit "| --- | --- |";
               lit "| a | 1 |"; lit "| b | 2 |"; lit "| c | 3 |"] in
  process_table rows true
    = [lit "| Name | date |"; lit "| --- | --- |";
       lit "| c | 3 |"; lit "| b | 2 |"; lit "| a | 1 |"] /\
  take 2 (process_table rows true) = take 2 rows /\
  process_table (take 2 rows) true = take 2 rows.
Proof.
  intros rows.
  destruct (keep_header_reversal rows) as (_ & Hlong & Hhead).
  destruct (keep_header_reversal (take 2 rows)) as (Hshort & _).
  split; [|split].
  - rewrite Hlong; [reflexivity | simpl; lia].
  - apply Hhead. simpl. lia.
  - apply Hshort. simpl. lia.
Defined.

(** C3.  No-header reversal: a block of at most two rows is reversed.  A
    longer block is reversed, and then the first row of the reversed block
    that contains [---], [:-:], [:--] or [--:] is taken out and put back
    at index 1, unless it is at index 1 already (and the reversed block is
    the result when no row contains one).  So [header, separator, row1,
    row2], where [separator] contains such a substring and the data rows
    do not, becomes [row2, separator, row1, header]. *)
Theorem no_header_reversal (rows : list str) :
  ((length rows <= 2)%nat -> process_table rows false = rev rows) /\
  ((2 < length rows)%nat ->
     (forall before sep after,
        rev rows = before ++ sep :: after ->
        Forall (fun r => looks_like_separator r = false) before ->
        looks_like_separator sep = true ->
        process_table rows false =
          if decide (length before = 1%nat) then rev rows
          else insert_at 1 sep (before ++ after)) /\
     (Forall (fun r => looks_like_separator r = false) rows ->
        process_table rows false = rev rows)) /\
  (forall header separator row1 row2,
     rows = [header; separator; row1; row2] ->
     looks_like_separator separator = true ->
     looks_like_separator row1 = false ->
     looks_like_separator row2 = false ->
     process_table rows false = [row2; separator; row1; header]).
Proof.
  assert (Hlong : (2 < length rows)%nat ->
    process_table rows false =
      match find_separator_idx 0 (rev rows) with
      | Some idx =>
          if negb (idx =? 1)%nat then
            match rev rows !! idx with
            | Some sep => insert_at 1 sep (pop_at idx (rev rows))
            | None => rev rows
            end
          else rev rows
      | None => rev rows
      end).
  { intros Hlen. unfold process_table.
    destruct (Nat.leb_spec (length rows) 1); [lia|].
    destruct (Nat.leb_spec (length rows) 2); [lia|]. reflexivity. }
  split; [|split].
  - intros Hlen. unfold process_table.
    destruct (Nat.leb_spec (length rows) 1) as [H1|H1].
    + destruct rows as [|r [|]]; simpl in H1; try lia; reflexivity.
    + destruct (Nat.leb_spec (length rows) 2); [reflexivity | lia].
  - intros Hlen. split.
    + intros before sep after Hrev Hbefore Hsep.
      rewrite (Hlong Hlen), Hrev.
      rewrite (find_separator_idx_first before after sep 0 Hbefore Hsep).
      simpl Nat.add.
      rewrite lookup_middle, pop_at_middle.
      destruct (decide (length before = 1%nat)) as [->|Hne]; [reflexivity|].
      destruct (Nat.eqb_spec (length before) 1); [contradiction | reflexivity].
    + intros Hnone. rewrite (Hlong Hlen).
      rewrite find_separator_idx_none; [reflexivity|].
      apply List.Forall_rev, Hnone.
  - intros header separator row1 row2 -> Hsep H1 H2.
    rewrite Hlong by (simpl; lia).
    simpl. rewrite H2, H1, Hsep. reflexivity.
Qed.

Lemma no_header_reversal_witness :
  let header := lit "| Name | date |" in
  let separator := lit "| --- | :-: |" in
  let row1 := lit "| a | 1 |" in
  let row2 := lit "| b | 2 |" in
  process_table [header; separator; row1; row2] false
    = [row2; separator; row1; header] /\
  process_table [header; separator] false = [separator; header] /\
  process_table [header; row1; row2; separator] false
    = [row2; separator; row1; header].
Proof.
  intros header separator row1 row2.
  split; [|split].
  - destruct (no_header_reversal [header; separator; row1; row2]) as (_ & _ & H).
    apply (H header separator row1 row2); reflexivity.
  - destruct (no_header_reversal [header; separator]) as (H & _).
    apply H. simpl. lia.
  - destruct (no_header_reversal [header; row1; row2; separator]) as (_ & H & _).
    destruct H as (H & _); [simpl; lia|].
    rewrite (H [] separator [row2; row1; header]).
    + reflexivity.
    + reflexivity.
    + constructor.
    + reflexivity.
Defined.

(** C10.  Keep-header reversal of a whole document undoes itself:
    reversing the reversed text gives the original text, for every text. *)
Theorem reverse_markdown_table_involution (content : str) :
  reverse_markdown_table (reverse_markdown_table content true) true = content.
Proof.
  unfold reverse_markdown_table.
  rewrite !reverse_lines_flush.
  pose proof (flush_blocks_perm true (split NL content) []) as Hperm.
  simpl in Hperm.
  rewrite split_join.
  - rewrite (flush_blocks_twice (split NL content) [] (List.Forall_nil _)).
    simpl. apply join_split.
  - intros Hnil. rewrite Hnil in Hperm.
    apply Permutation_nil in Hperm. exact (split_not_nil NL content Hperm).
  - eapply Permutation_Forall; [symmetry; exact Hperm|].
    apply split_without_sep.
Qed.

End ReverseTableFacts.

(** * Properties of reorder_columns.py *)

Module ReorderColumnsFacts.
Import Py Run ReorderColumns.

(** ** The frontmatter extractor *)

Lemma scan_frontmatter_unclosed (rest frontmatter : list str) :
  Forall (fun l => startswith (lit "---") (strip l) = false) rest ->
  scan_frontmatter frontmatter rest = None.
Proof.
  intros H. revert frontmatter.
  induction H as [|l rest Hl _ IH]; intros frontmatter; simpl.
  - reflexivity.
  - rewrite Hl. apply IH.
Qed.

(** C5, as the code has it.  When the list of lines is empty, or its first
    line, stripped of whitespace, does not start with [---], or no later
    line, stripped, starts with [---], the extractor returns no
    frontmatter and all the lines as the body. *)
Theorem parse_frontmatter_no_block (lines : list str) :
  match lines with
  | [] => True
  | first :: rest =>
      startswith (lit "---") (strip first) = false \/
      Forall (fun l => startswith (lit "---") (strip l) = false) rest
  end ->
  parse_frontmatter lines = ([], lines).
Proof.
  destruct lines as [|first rest]; [reflexivity|].
  intros [Hfirst|Hrest]; unfold parse_frontmatter.
  - rewrite Hfirst. reflexivity.
  - destruct (startswith (lit "---") (strip first)); [|reflexivity].
    simpl. rewrite scan_frontmatter_unclosed by exact Hrest. reflexivity.
Qed.

Lemma parse_frontmatter_no_block_witness :
  parse_frontmatter [lit "# Title"; lit "---"; lit "text"]
    = ([], [lit "# Title"; lit "---"; lit "text"]) /\
  parse_frontmatter [lit "---"; lit "key: value"; lit "text"]
    = ([], [lit "---"; lit "key: value"; lit "text"]).
Proof.
  split.
  - apply (parse_frontmatter_no_block [lit "# Title"; lit "---"; lit "text"]).
    left. reflexivity.
  - apply (parse_frontmatter_no_block [lit "---"; lit "key: value"; lit "text"]).
    right. repeat constructor.
Defined.

(** C5, as the specification words it, fails: a first line that is not
    exactly [---] but starts with it opens a block, and a later line that
    is not exactly [---] but starts with it closes one. *)
Lemma parse_frontmatter_delimiter_prefix :
  let opened := [lit "---- draft"; lit "key: value"; lit "---"; lit "text"] in
  let closed := [lit "---"; lit "key: value"; lit "----"; lit "text"] in
  (strip (hd [] opened) <> lit "---" /\
   parse_frontmatter opened
     = ([lit "---- draft"; lit "key: value"; lit "---"], [lit "text"]) /\
   parse_frontmatter opened <> ([], opened)) /\
  (Forall (fun l => strip l <> lit "---") (tl closed) /\
   parse_frontmatter closed
     = ([lit "---"; lit "key: value"; lit "----"], [lit "text"]) /\
   parse_frontmatter closed <> ([], closed)).
Proof.
  repeat split; try discriminate; try reflexivity.
  repeat constructor; discriminate.
Qed.

(** ** Sorting and permutations of [0..n-1] *)

Lemma insert_sorted_perm (x : Z) (l : list Z) :
  Permutation (insert_sorted x l) (x :: l).
Proof.
  induction l as [|y l IH]; simpl; [reflexivity|].
  destruct (x <=? y)%Z; [reflexivity|].
  rewrite IH. apply perm_swap.
Qed.

Lemma sorted_perm (l : list Z) : Permutation (sorted l) l.
Proof.
  induction l as [|x l IH]; simpl; [reflexivity|].
  rewrite insert_sorted_perm, IH. reflexivity.
Qed.

Lemma insert_sorted_comm (x y : Z) (l : list Z) :
  insert_sorted x (insert_sorted y l) = insert_sorted y (insert_sorted x l).
Proof.
  induction l as [|z l IH]; simpl.
  - destruct (Z.leb_spec x y), (Z.leb_spec y x); try reflexivity; try lia.
    replace y with x by lia. reflexivity.
  - destruct (Z.leb_spec y z), (Z.leb_spec x z); simpl;
      repeat match goal with
             | |- context [(?a <=? ?b)%Z] => destruct (Z.leb_spec a b)
             end; try reflexivity; try lia.
    + replace y with x by lia. reflexivity.
    + rewrite IH. reflexivity.
Qed.

Lemma sorted_of_perm (l l' : list Z) :
  Permutation l l' -> sorted l = sorted l'.
Proof.
  induction 1 as [|x l l' _ IH|x y l|l l' l'' _ IH1 _ IH2]; simpl.
  - reflexivity.
  - rewrite IH. reflexivity.
  - apply insert_sorted_comm.
  - congruence.
Qed.

Lemma sorted_seq (a n : nat) :
  sorted (List.map Z.of_nat (seq a n)) = List.map Z.of_nat (seq a n).
Proof.
  revert a. induction n as [|n IH]; intros a; simpl; [reflexivity|].
  rewrite IH. destruct n; simpl; [reflexivity|].
  destruct (Z.leb_spec (Z.of_nat a) (Z.of_nat (S a))); [reflexivity | lia].
Qed.

(** The test of line 133 is the test for a permutation of [0..n-1]. *)
Lemma sorted_is_range (order : list Z) :
  sorted order = range (length order) <-> Permutation order (range (length order)).
Proof.
  split; intros H.
  - rewrite <- H. symmetry. apply sorted_perm.
  - rewrite (sorted_of_perm _ _ H). apply sorted_seq.
Qed.

Lemma range_length (n : nat) : length (range n) = n.
Proof. unfold range. rewrite length_map, length_seq. reflexivity. Qed.

Lemma in_range (n : nat) (k : Z) : In k (range n) <-> (0 <= k < Z.of_nat n)%Z.
Proof.
  unfold range. rewrite in_map_iff. split.
  - intros (i & <- & Hi). apply in_seq in Hi. lia.
  - intros Hk. exists (Z.to_nat k). split; [lia|]. apply in_seq. lia.
Qed.

(** ** The order string *)

Section Order.
Variable int_ : str -> option Z.

Lemma ints_integers (toks : list str) (order : list Z) :
  ints int_ toks = inr order <-> Forall2 (fun tok n => int_ tok = Some n) toks order.
Proof.
  revert order. induction toks as [|tok toks IH]; intros order; simpl.
  - split.
    + intros [= <-]. constructor.
    + intros H. inversion H. reflexivity.
  - split.
    + destruct (int_ tok) as [n|] eqn:Hn; [|discriminate].
      destruct (ints int_ toks) as [e|ns] eqn:Hns; [discriminate|].
      intros [= <-]. constructor; [exact Hn | apply IH; reflexivity].
    + intros H. inversion H as [|? n ? ns Hn Hns]; subst.
      rewrite Hn. apply IH in Hns. rewrite Hns. reflexivity.
Qed.

(** Replacing the commas by spaces and splitting at whitespace gives the
    comma- or space-separated tokens. *)
Lemma fields_replace_comma (s cur : str) :
  fields_from isspace cur (replace COMMA SPACE s)
  = fields_from (fun c => isspace c || (c =? COMMA)) cur s.
Proof.
  revert cur. induction s as [|c s IH]; intros cur; simpl; [reflexivity|].
  destruct (N.eqb_spec c COMMA) as [->|Hne].
  - change (isspace SPACE) with true. simpl.
    destruct cur; rewrite (IH []); reflexivity.
  - rewrite orb_false_r. destruct (isspace c); [destruct cur|]; rewrite IH; reflexivity.
Qed.

Lemma split_ws_tokens (s : str) : split_ws (replace COMMA SPACE s) = tokens s.
Proof. apply fields_replace_comma. Qed.

Lemma parse_column_order_ok (order_str : str) (order : list Z) :
  parse_column_order int_ order_str = inr order <->
  Forall2 (fun tok n => int_ tok = Some n) (tokens order_str) order /\
  Permutation order (range (length (tokens order_str))).
Proof.
  unfold parse_column_order. rewrite split_ws_tokens.
  destruct (ints int_ (tokens order_str)) as [e|ns] eqn:Hints.
  - split; [discriminate|].
    intros (HF & _). apply ints_integers in HF. congruence.
  - apply ints_integers in Hints.
    pose proof (Forall2_length _ _ _ Hints) as Hlen.
    case_bool_decide as Hsorted; simpl.
    + split.
      * intros [= <-]. split; [exact Hints|].
        rewrite Hlen. apply sorted_is_range, Hsorted.
      * intros (HF & HP). f_equal.
        apply ints_integers in Hints, HF. congruence.
    + split; [discriminate|].
      intros (HF & HP). exfalso. apply Hsorted.
      apply ints_integers in Hints, HF.
      assert (ns = order) by congruence. subst ns.
      apply sorted_is_range. rewrite <- Hlen. exact HP.
Qed.

(** C9.  Parsing an order string gives the list of integers exactly when
    its comma- or space-separated tokens are integers that form a
    permutation of [0..n-1], [n] being the number of tokens.  For every
    other string it raises [ValueError], and [main] then ends with exit
    code 1 having read and written no file. *)
Theorem parse_column_order_permutation (order_str : str) :
  (forall order,
     parse_column_order int_ order_str = inr order <->
     Forall2 (fun tok n => int_ tok = Some n) (tokens order_str) order /\
     Permutation order (range (length (tokens order_str)))) /\
  ((~ exists order,
        Forall2 (fun tok n => int_ tok = Some n) (tokens order_str) order /\
        Permutation order (range (length (tokens order_str)))) ->
   exists msg,
     parse_column_order int_ order_str = inl (ValueError msg) /\
     forall (os : faults) (a : args) (fs : gmap str str),
       order a = order_str ->
       main int_ os a fs =
         {| exit_code := 1; writes := []; stdout := [];
            stderr := [Cat (lit "Error: ") msg] |}).
Proof.
  split; [apply parse_column_order_ok|].
  intros Hnot.
  destruct (parse_column_order int_ order_str) as [[msg]|order] eqn:Hparse.
  - exists msg. split; [reflexivity|].
    intros os a fs Ha. unfold main. rewrite Ha, Hparse. reflexivity.
  - exfalso. apply Hnot. exists order. apply parse_column_order_ok. exact Hparse.
Qed.

End Order.

Lemma parse_column_order_permutation_witness :
  parse_column_order int_ascii (lit "2,0 1") = inr [2; 0; 1]%Z /\
  exists msg,
    parse_column_order int_ascii (lit "0,2") = inl (ValueError msg) /\
    main int_ascii no_faults
      {| file := lit "daily.md"; order := lit "0,2"; output := None; dry_run := false |}
      ∅
    = {| exit_code := 1; writes := []; stdout := [];
         stderr := [Cat (lit "Error: ") msg] |}.
Proof.
  split.
  - apply (parse_column_order_permutation int_ascii (lit "2,0 1")).
    split.
    + repeat constructor.
    + apply (sorted_is_range [2; 0; 1]%Z). reflexivity.
  - destruct (parse_column_order_permutation int_ascii (lit "0,2")) as (_ & H).
    destruct H as (msg & Hparse & Hmain).
    + intros (order & HF & HP).
      assert (Horder : order = [0; 2]%Z).
      { vm_compute in HF.
        inversion HF as [|? n0 ? ns0 H0 HF0]; subst.
        inversion HF0 as [|? n1 ? ns1 H1 HF1]; subst.
        inversion HF1; subst.
        vm_compute in H0, H1. congruence. }
      subst order.
      apply (sorted_is_range [0; 2]%Z) in HP. discriminate HP.
    + exists msg. split; [exact Hparse|].
      apply Hmain. reflexivity.
Defined.

(** ** Reordering the cells of a row *)

Lemma pick_cells (columns : list str) (order : list Z) (picked : list str) :
  pick columns order = Some picked <->
  Forall2 (fun i c => index columns i = Some c) order picked.
Proof.
  revert picked. induction order as [|i order IH]; intros picked; simpl.
  - split.
    + intros [= <-]. constructor.
    + intros H. inversion H. reflexivity.
  - split.
    + destruct (index columns i) as [c|] eqn:Hc; [|discriminate].
      destruct (pick columns order) as [cs|]; [|discriminate].
      intros [= <-]. constructor; [exact Hc | apply IH; reflexivity].
    + intros H. inversion H as [|? c ? cs Hc Hcs]; subst.
      rewrite Hc. apply IH in Hcs. rewrite Hcs. reflexivity.
Qed.

Lemma pick_in_range (columns : list str) (order : list Z) :
  Forall (fun i => (0 <= i < Z.of_nat (length columns))%Z) order ->
  exists picked, pick columns order = Some picked.
Proof.
  induction 1 as [|i order Hi _ (cs & IH)]; simpl; [eauto|].
  unfold index. destruct (Z.leb_spec 0 i); [|lia].
  destruct (lookup_lt_is_Some_2 columns (Z.to_nat i)) as [c Hc]; [lia|].
  rewrite Hc, IH. eauto.
Qed.

Lemma index_in_range {A} (l : list A) (i : nat) :
  index l (Z.of_nat i) = l !! i.
Proof.
  unfold index. destruct (Z.leb_spec 0 (Z.of_nat i)); [|lia].
  rewrite Nat2Z.id. reflexivity.
Qed.

Lemma index_of_lookup (k : Z) (order : list Z) :
  In k order ->
  order !! index_of k order = Some k /\ (index_of k order < length order)%nat.
Proof.
  induction order as [|i order IH]; simpl; [intros []|].
  intros Hin. destruct (Z.eqb_spec i k) as [->|Hne].
  - split; [reflexivity | lia].
  - destruct Hin as [?|Hin]; [contradiction|].
    destruct (IH Hin). split; [assumption | lia].
Qed.

Lemma permutation_of_range (order : list Z) (n : nat) :
  Permutation order (range n) ->
  length order = n /\
  Forall (fun i => (0 <= i < Z.of_nat n)%Z) order /\
  (forall k, (k < n)%nat -> In (Z.of_nat k) order).
Proof.
  intros HP. split; [|split].
  - rewrite (Permutation_length HP). apply range_length.
  - apply List.Forall_forall. intros i Hi. apply in_range.
    eapply Permutation_in; [exact HP | exact Hi].
  - intros k Hk. eapply Permutation_in; [symmetry; exact HP|].
    apply in_range. lia.
Qed.

(** C8.  For a permutation [order] of [0..n-1] and a row of [n] cells,
    reordering the cells by [order] and then by the inverse permutation
    gives the cells back; and the inverse of [2,0,1] is [1,2,0]. *)
Theorem reorder_columns_round_trip (cells : list str) (order : list Z) :
  Permutation order (range (length cells)) ->
  (exists reordered,
     reorder_columns cells order = inr reordered /\
     reorder_columns reordered (inverse_permutation order) = inr cells) /\
  inverse_permutation [2; 0; 1]%Z = [1; 2; 0]%Z.
Proof.
  intros HP. split; [|reflexivity].
  destruct (permutation_of_range _ _ HP) as (Hlen & Hrange & Hall).
  destruct (pick_in_range cells order Hrange) as [reordered Hpick].
  exists reordered. unfold reorder_columns. rewrite Hpick. split; [reflexivity|].
  apply pick_cells in Hpick.
  pose proof (Forall2_length _ _ _ Hpick) as Hlen'.
  assert (Hback : pick reordered (inverse_permutation order) = Some cells).
  { apply pick_cells. apply Forall2_same_length_lookup. split.
    - unfold inverse_permutation. rewrite length_map, range_length. exact Hlen.
    - intros k i c Hi Hc.
      pose proof (lookup_lt_Some _ _ _ Hc) as Hk.
      unfold inverse_permutation, range in Hi.
      rewrite !list_lookup_fmap, Hlen in Hi.
      rewrite lookup_seq_lt in Hi by exact Hk. simpl in Hi.
      injection Hi as <-.
      rewrite index_in_range.
      destruct (index_of_lookup (Z.of_nat k) order (Hall k Hk)) as (Hpos & _).
      destruct (Forall2_lookup_l _ _ _ _ _ Hpick Hpos) as (c' & Hc' & Hidx).
      rewrite index_in_range in Hidx. congruence. }
  rewrite Hback. reflexivity.
Qed.

Lemma reorder_columns_round_trip_witness :
  exists reordered,
    reorder_columns [lit " a "; lit " b "; lit " c "] [2; 0; 1]%Z = inr reordered /\
    reorder_columns reordered (inverse_permutation [2; 0; 1]%Z)
      = inr [lit " a "; lit " b "; lit " c "].
Proof.
  apply (reorder_columns_round_trip [lit " a "; lit " b "; lit " c "] [2; 0; 1]%Z).
  apply (sorted_is_range [2; 0; 1]%Z). reflexivity.
Defined.

(** ** The table scan *)

Lemma process_rows_app (order : list Z) (block rest result : list str) :
  process_rows result (block ++ rest) order =
  match process_rows result block order with
  | inl e => inl e
  | inr result' => process_rows result' rest order
  end.
Proof.
  revert result. induction block as [|line block IH]; intros result; simpl.
  - reflexivity.
  - destruct (parse_table_row line) as [[columns original]|]; [|apply IH].
    destruct (negb (length columns =? length order)%nat); [reflexivity|].
    destruct (reorder_columns columns order); [reflexivity | apply IH].
Qed.

Lemma process_rows_result (order : list Z) (lines result : list str) :
  process_rows result lines order =
  match process_rows [] lines order with
  | inl e => inl e
  | inr processed => inr (result ++ processed)
  end.
Proof.
  revert result. induction lines as [|line lines IH]; intros result; simpl.
  - rewrite app_nil_r. reflexivity.
  - destruct (parse_table_row line) as [[columns original]|].
    + destruct (negb (length columns =? length order)%nat); [reflexivity|].
      destruct (reorder_columns columns order) as [e|reordered]; [reflexivity|].
      rewrite IH. rewrite (IH [_]).
      destruct (process_rows [] lines order); [reflexivity|].
      rewrite <- app_assoc. reflexivity.
    + rewrite IH. rewrite (IH [line]).
      destruct (process_rows [] lines order); [reflexivity|].
      rewrite <- app_assoc. reflexivity.
Qed.

Lemma process_table_rows (order : list Z) (table_lines : list str) :
  process_table table_lines order = process_rows [] table_lines order.
Proof. destruct table_lines; reflexivity. Qed.

(** The scan treats every line on its own: a table row is checked and
    reordered, any other line is kept. *)
Lemma find_loop_rows (order : list Z) (lines result : list str) :
  find_loop order result lines = process_rows result lines order.
Proof.
  remember (length lines) as n eqn:Hn.
  assert (Hle : (length lines <= n)%nat) by lia. clear Hn.
  revert lines result Hle.
  induction n as [|n IH]; intros lines result Hle.
  { destruct lines; [reflexivity | simpl in Hle; lia]. }
  destruct lines as [|line after]; [reflexivity|].
  simpl in Hle. cbn [find_loop].
  destruct (parse_table_row line) as [[columns original]|] eqn:Hline.
  2:{ simpl. rewrite Hline. apply IH. lia. }
  change (line :: after) with ([line] ++ after).
  assert (Hafter : (length after <= n)%nat) by lia. clear Hle Hline.
  generalize [line] as table_lines.
  induction after as [|current rest' IHrest]; intros table_lines.
  - rewrite process_table_rows, app_nil_r.
    rewrite (process_rows_result order table_lines result). reflexivity.
  - simpl in Hafter.
    destruct (parse_table_row current) as [[ccols corig]|] eqn:Hcur.
    + rewrite IHrest by lia. rewrite <- app_assoc. reflexivity.
    + rewrite process_table_rows, process_rows_app.
      rewrite (process_rows_result order table_lines result).
      destruct (process_rows [] table_lines order) as [e|processed]; [reflexivity|].
      apply IH. simpl. lia.
Qed.

Lemma process_rows_first_mismatch (order : list Z) (lines result : list str)
    (row : str) (cells : list str) (original : str) :
  Permutation order (range (length order)) ->
  In row lines ->
  parse_table_row row = Some (cells, original) ->
  length cells <> length order ->
  exists before first after cells' original',
    lines = before ++ first :: after /\
    (forall r c o, In r before -> parse_table_row r = Some (c, o) ->
                   length c = length order) /\
    parse_table_row first = Some (cells', original') /\
    length cells' <> length order /\
    process_rows result lines order
      = inl (ValueError (column_count_mismatch (length cells') (length order))).
Proof.
  intros HP Hin Hrow Hcount. revert result.
  induction lines as [|line lines IH]; intros result; [destruct Hin|].
  cbn [process_rows].
  destruct (parse_table_row line) as [[columns orig]|] eqn:Hline.
  - destruct (Nat.eqb_spec (length columns) (length order)) as [Heq|Hne]; cbn [negb].
    + destruct (permutation_of_range _ _ HP) as (_ & Hrange & _).
      rewrite <- Heq in Hrange.
      destruct (pick_in_range columns order Hrange) as [picked Hpick].
      unfold reorder_columns. rewrite Hpick.
      destruct Hin as [->|Hin]; [congruence|].
      destruct (IH Hin (result ++ [format_table_row picked orig ++ [NL]]))
        as (before & first & after & cells' & original' & -> & Hbefore & Hfirst & Hne & Hres).
      exists (line :: before), first, after, cells', original'.
      split; [reflexivity|]. split; [|auto].
      intros r c o [<-|Hr] Hp; [congruence | eapply Hbefore; eassumption].
    + exists [], line, lines, columns, orig.
      split; [reflexivity|]. split; [intros r c o []|]. auto.
  - destruct Hin as [->|Hin]; [congruence|].
    destruct (IH Hin (result ++ [line]))
      as (before & first & after & cells' & original' & -> & Hbefore & Hfirst & Hne & Hres).
    exists (line :: before), first, after, cells', original'.
    split; [reflexivity|]. split; [|auto].
    intros r c o [<-|Hr] Hp; [congruence | eapply Hbefore; eassumption].
Qed.

(** C1, as the code has it.  When a table row after the frontmatter block
    that [parse_frontmatter] takes splits into a number of cells that
    differs from the length of the permutation, the processing raises the
    [ValueError] whose message is "Column count mismatch: table has K
    columns, but order specifies N columns", K being the decimal numeral
    of the number of cells of the first such row and N that of the length
    of the permutation; [main] ends with exit code 1 without writing a
    file: the files are as they were. *)
Theorem column_count_mismatch_aborts (int_ : str -> option Z) (os : faults)
    (a : args) (fs : gmap str str) (text : str) (perm : list Z)
    (row : str) (cells : list str) (original : str) :
  parse_column_order int_ (order a) = inr perm ->
  fs !! file a = Some text ->
  In row (parse_frontmatter (readlines text)).2 ->
  parse_table_row row = Some (cells, original) ->
  length cells <> length perm ->
  exists (before after : list str) (first : str) (cells' : list str)
         (original' actual expected : str),
    (parse_frontmatter (readlines text)).2 = before ++ first :: after /\
    (forall r c o, In r before -> parse_table_row r = Some (c, o) ->
                   length c = length perm) /\
    parse_table_row first = Some (cells', original') /\
    length cells' <> length perm /\
    is_decimal_of actual (N.of_nat (length cells')) /\
    is_decimal_of expected (N.of_nat (length perm)) /\
    find_and_process_tables (parse_frontmatter (readlines text)).2 perm
      = inl (ValueError
               (Text (lit "Column count mismatch: table has " ++ actual
                      ++ lit " columns, but order specifies " ++ expected
                      ++ lit " columns"))) /\
    main int_ os a fs =
      {| exit_code := 1; writes := []; stdout := [];
         stderr := [Cat (lit "Error processing table: ")
                        (Text (lit "Column count mismatch: table has " ++ actual
                               ++ lit " columns, but order specifies " ++ expected
                               ++ lit " columns"))] |} /\
    apply_writes fs (writes (main int_ os a fs)) = fs.
Proof.
  intros Hparse Hfile Hin Hrow Hcount.
  assert (HP : Permutation perm (range (length perm))).
  { apply parse_column_order_ok in Hparse as (HF & HP).
    rewrite (Forall2_length _ _ _ HF) in HP. exact HP. }
  destruct (process_rows_first_mismatch perm _ [] row cells original HP Hin Hrow Hcount)
    as (before & first & after & cells' & original' & Hsplit & Hbefore & Hfirst & Hne & Hres).
  assert (Hfind : find_and_process_tables (parse_frontmatter (readlines text)).2 perm
                  = inl (ValueError (column_count_mismatch (length cells') (length perm)))).
  { unfold find_and_process_tables. rewrite find_loop_rows. exact Hres. }
  assert (Hmain : main int_ os a fs =
      {| exit_code := 1; writes := []; stdout := [];
         stderr := [Cat (lit "Error processing table: ")
                        (column_count_mismatch (length cells') (length perm))] |}).
  { unfold main. rewrite Hparse, Hfile.
    destruct (parse_frontmatter (readlines text)) as [frontmatter content].
    simpl in Hfind. rewrite Hfind. reflexivity. }
  exists before, after, first, cells', original',
    (str_of_nat (length cells')), (str_of_nat (length perm)).
  split; [exact Hsplit|]. split; [exact Hbefore|]. split; [exact Hfirst|].
  split; [exact Hne|].
  split; [apply PyFacts.str_of_nat_decimal|].
  split; [apply PyFacts.str_of_nat_decimal|].
  split; [exact Hfind|]. split; [exact Hmain|].
  rewrite Hmain. reflexivity.
Qed.

Lemma column_count_mismatch_aborts_witness :
  let text := lit "---
title: log
---
| a | b | c |
|---|---|---|
| 1 | 2 |
" in
  let a := {| file := lit "daily.md"; order := lit "2,0,1";
              output := None; dry_run := false |} in
  let fs : gmap str str := {[ lit "daily.md" := text ]} in
  exists actual expected : str,
    is_decimal_of actual 2 /\
    is_decimal_of expected 3 /\
    main int_ascii no_faults a fs =
      {| exit_code := 1; writes := []; stdout := [];
         stderr := [Cat (lit "Error processing table: ")
                        (Text (lit "Column count mismatch: table has " ++ actual
                               ++ lit " columns, but order specifies " ++ expected
                               ++ lit " columns"))] |} /\
    apply_writes fs (writes (main int_ascii no_faults a fs)) = fs.
Proof.
  intros text a fs.
  destruct (column_count_mismatch_aborts int_ascii no_faults a fs text [2; 0; 1]%Z
              (lit "| 1 | 2 |
") [lit " 1 "; lit " 2 "] (lit "| 1 | 2 |"))
    as (before & after & first & cells' & original' & actual & expected
        & Hsplit & Hbefore & Hfirst & Hne & Hactual & Hexpected & _ & Hmain & Hfs).
  - reflexivity.
  - apply lookup_singleton_eq.
  - vm_compute. do 2 right. left. reflexivity.
  - reflexivity.
  - simpl. lia.
  - assert (Hcells : length cells' = 2%nat).
    { destruct before as [|b0 [|b1 [|b2 before']]]; vm_compute in Hsplit.
      - injection Hsplit as <- _. vm_compute in Hfirst.
        injection Hfirst as <- _. exfalso. apply Hne. reflexivity.
      - injection Hsplit as _ <- _. vm_compute in Hfirst.
        injection Hfirst as <- _. exfalso. apply Hne. reflexivity.
      - injection Hsplit as _ _ <- _. vm_compute in Hfirst.
        injection Hfirst as <- _. reflexivity.
      - injection Hsplit as _ _ _ Hrest. destruct before'; discriminate Hrest. }
    rewrite Hcells in Hactual.
    exists actual, expected. auto.
Defined.

(** C1, as the specification words it, fails: a table row inside the
    block that [parse_frontmatter] takes is not looked at.  Here the block
    runs from the first [----] line to the second, the row [| 1 | 2 |] has
    two cells, the order has three indices, and [main] writes the file and
    ends with exit code 0. *)
Lemma frontmatter_rows_are_not_checked :
  let text := lit "----
| a | b | c |
|---|---|---|
| 1 | 2 |
----
text
" in
  let row := lit "| 1 | 2 |
" in
  let a := {| file := lit "daily.md"; order := lit "2,0,1";
              output := None; dry_run := false |} in
  let fs : gmap str str := {[ lit "daily.md" := text ]} in
  parse_column_order int_ascii (order a) = inr [2; 0; 1]%Z /\
  In row (readlines text) /\
  parse_table_row row = Some ([lit " 1 "; lit " 2 "], lit "| 1 | 2 |") /\
  length [lit " 1 "; lit " 2 "] <> length [2; 0; 1]%Z /\
  exit_code (main int_ascii no_faults a fs) = 0%Z /\
  writes (main int_ascii no_faults a fs) = [(lit "daily.md", text)].
Proof.
  vm_compute. repeat split; try reflexivity; try discriminate.
  do 3 right. left. reflexivity.
Qed.


End ReorderColumnsFacts.

(** * Properties of split_by_year.py *)

Module SplitByYearFacts.
Import Py Run SplitByYear.

(** ** The metadata block and the header *)

Lemma scan_metadata_inside (inner rest : list str) (closing : str)
    (i : nat) (metadata_lines : list str) :
  Forall (fun l => strip l <> lit "---") inner ->
  strip closing = lit "---" ->
  scan_metadata i (inner ++ closing :: rest) metadata_lines true
  = (metadata_lines ++ inner ++ [closing], S (i + length inner)).
Proof.
  intros Hinner Hclose. revert i metadata_lines.
  induction Hinner as [|l inner Hl _ IH]; intros i metadata_lines; simpl.
  - rewrite bool_decide_eq_true_2 by exact Hclose. simpl.
    f_equal. lia.
  - rewrite bool_decide_eq_false_2 by exact Hl.
    rewrite IH, <- app_assoc. simpl. f_equal. lia.
Qed.

(** A document that opens with a closed frontmatter block: the metadata
    lines are that block. *)
Lemma scan_metadata_frontmatter (opening closing : str) (inner body : list str) :
  strip opening = lit "---" ->
  Forall (fun l => strip l <> lit "---") inner ->
  strip closing = lit "---" ->
  scan_metadata 0 (opening :: inner ++ closing :: body) [] false
  = (opening :: inner ++ [closing], S (S (length inner))).
Proof.
  intros Hopen Hinner Hclose. simpl.
  rewrite bool_decide_eq_true_2 by exact Hopen. simpl.
  rewrite scan_metadata_inside by assumption. reflexivity.
Qed.

(** A document without a [---] line has no metadata lines. *)
Lemma scan_metadata_absent (lines : list str) (i : nat) :
  Forall (fun l => strip l <> lit "---") lines ->
  scan_metadata i lines [] false = ([], O).
Proof.
  intros H. revert i. induction H as [|l lines Hl _ IH]; intros i; simpl.
  - reflexivity.
  - rewrite bool_decide_eq_false_2 by exact Hl. apply IH.
Qed.

Lemma find_header_none (rest : list str) (i : nat) :
  Forall (fun l => is_header l = false) rest -> find_header i rest = None.
Proof.
  intros H. revert i. induction H as [|l rest Hl _ IH]; intros i; simpl.
  - reflexivity.
  - rewrite Hl. apply IH.
Qed.

Lemma find_header_first (before rest : list str) (header : str) (i : nat) :
  Forall (fun l => is_header l = false) before ->
  is_header header = true ->
  find_header i (before ++ header :: rest) = Some ((i + length before)%nat, header).
Proof.
  intros H Hh. revert i. induction H as [|l before Hl _ IH]; intros i; simpl.
  - rewrite Hh. do 2 f_equal. lia.
  - rewrite Hl, IH. do 2 f_equal. lia.
Qed.

(** ** The dictionary of rows *)

Lemma dict_get_append (k k' : key) (line : str) (d : dict) :
  dict_get k (dict_append k' line d)
  = if bool_decide (k = k') then dict_get k d ++ [line] else dict_get k d.
Proof.
  induction d as [|[k0 rows] d IH]; simpl.
  - repeat case_bool_decide; congruence.
  - repeat (case_bool_decide; simpl); try congruence.
Qed.

Lemma dict_get_mem (k : key) (d : dict) :
  dict_get k d <> [] -> dict_mem k d = true.
Proof.
  induction d as [|[k0 rows] d IH]; simpl; [congruence|].
  case_bool_decide; simpl; [reflexivity | exact IH].
Qed.

Section Facts.
Variable strptime_year : str -> option Z.
Variable path_stem : str -> str.
Variable path_sibling : str -> str -> str.
Variable os : faults.

Abbreviation split_markdown_by_year :=
  (split_markdown_by_year strptime_year path_stem path_sibling os).
Abbreviation script := (script strptime_year path_stem path_sibling os).
Abbreviation parse_date := (parse_date strptime_year).
Abbreviation bucket_row := (bucket_row strptime_year).

(** C6, as the code has it.  When the input file does not exist, and when
    no line after the metadata block contains [|], [Name] and [date], the
    script prints its error and writes no file; the function returns and
    the process ends with exit code 0. *)
Theorem script_reports_and_returns (program input_file : str) (fs : gmap str str) :
  (fs !! input_file = None ->
   read_fault os input_file = None ->
   script [program; input_file] fs =
     {| exit_code := 0; writes := [];
        stdout := [Text (lit "Error: File '" ++ input_file ++ lit "' not found.")];
        stderr := [] |}) /\
  (forall text,
     fs !! input_file = Some text ->
     Forall (fun l => is_header l = false)
       (drop (scan_metadata 0 (readlines text) [] false).2 (readlines text)) ->
     script [program; input_file] fs =
       {| exit_code := 0; writes := [];
          stdout := [Text (lit
            "Error: Could not find table header with 'Name' and 'date' columns.")];
          stderr := [] |}).
Proof.
  split.
  - intros Hnone Hpath. unfold script, SplitByYear.split_markdown_by_year. simpl.
    rewrite Hnone, Hpath. reflexivity.
  - intros text Hsome Hnohdr.
    unfold script, SplitByYear.split_markdown_by_year. simpl. rewrite Hsome.
    destruct (scan_metadata 0 (readlines text) [] false) as [metadata_lines metadata_end].
    simpl in Hnohdr.
    replace (if (0 <? metadata_end)%nat then metadata_end else O) with metadata_end
      by (destruct metadata_end; reflexivity).
    rewrite find_header_none by exact Hnohdr. reflexivity.
Qed.

(** ** Bucketing the rows *)

Lemma bucket_row_skip (d : dict) (line : str) :
  is_data_row line = false -> bucket_row d line = d.
Proof.
  unfold is_data_row, SplitByYear.bucket_row. intros H.
  rewrite length_map.
  destruct (truthy (strip line)); [|reflexivity].
  destruct (startswith [PIPE] (strip line)); [|reflexivity].
  cbn [andb negb orb] in *. apply Nat.leb_gt in H.
  destruct (Nat.ltb_spec (length (split PIPE line)) 3); [reflexivity | lia].
Qed.

Lemma bucket_row_data (d : dict) (line cell : str) :
  truthy (strip line) = true ->
  startswith [PIPE] (strip line) = true ->
  date_cell line = Some cell ->
  bucket_row d line =
    match parse_date cell with
    | Some year =>
        if bool_decide (year = 0%Z) then dict_append Unknown line d
        else dict_append (Year year) line d
    | None => dict_append Unknown line d
    end.
Proof.
  unfold date_cell, SplitByYear.bucket_row. intros -> -> Hcell.
  cbn [andb negb orb].
  destruct (split PIPE line !! 2%nat) as [c|] eqn:Hc; [|discriminate].
  injection Hcell as <-.
  pose proof (lookup_lt_Some _ _ _ Hc) as Hlen.
  rewrite length_map.
  destruct (Nat.ltb_spec (length (split PIPE line)) 3); [lia|].
  destruct (Nat.ltb_spec 2 (length (split PIPE line))); [|lia].
  replace (nth 2 (List.map strip (split PIPE line)) []) with (strip c); [reflexivity|].
  symmetry. apply nth_lookup_Some.
  change (List.map strip (split PIPE line)) with (strip <$> split PIPE line).
  rewrite list_lookup_fmap, Hc. reflexivity.
Qed.

Lemma bucket_rows_filter (lines : list str) (d : dict) :
  fold_left bucket_row lines d
  = fold_left bucket_row (List.filter is_data_row lines) d.
Proof.
  revert d. induction lines as [|line lines IH]; intros d; [reflexivity|].
  simpl. destruct (is_data_row line) eqn:Hrow.
  - simpl. apply IH.
  - rewrite bucket_row_skip by exact Hrow. apply IH.
Qed.

Lemma bucket_row_keeps (d : dict) (line row : str) (k : key) :
  In row (dict_get k d) -> In row (dict_get k (bucket_row d line)).
Proof.
  intros Hin.
  assert (Happ : forall k', In row (dict_get k (dict_append k' line d))).
  { intros k'. rewrite dict_get_append. case_bool_decide; [|exact Hin].
    apply in_or_app. left. exact Hin. }
  unfold SplitByYear.bucket_row.
  repeat match goal with
         | |- context [if ?b then _ else _] => destruct b
         | |- context [match ?o with Some _ => _ | None => _ end] => destruct o
         end; auto.
Qed.

Lemma bucket_rows_keep (lines : list str) (d : dict) (row : str) (k : key) :
  In row (dict_get k d) -> In row (dict_get k (fold_left bucket_row lines d)).
Proof.
  revert d. induction lines as [|line lines IH]; intros d Hin; [exact Hin|].
  simpl. apply IH, bucket_row_keeps, Hin.
Qed.

Lemma bucket_rows_unknown (lines : list str) (d : dict) (row cell : str) :
  In row lines ->
  truthy (strip row) = true ->
  startswith [PIPE] (strip row) = true ->
  date_cell row = Some cell ->
  parse_date cell = None ->
  In row (dict_get Unknown (fold_left bucket_row lines d)).
Proof.
  intros Hin Hblank Hpipe Hcell Hdate. revert d.
  induction lines as [|line lines IH]; intros d; [destruct Hin|].
  simpl. destruct Hin as [->|Hin]; [|apply IH, Hin].
  apply bucket_rows_keep.
  rewrite (bucket_row_data d row cell Hblank Hpipe Hcell), Hdate.
  rewrite dict_get_append, bool_decide_eq_true_2 by reflexivity.
  apply in_or_app. right. left. reflexivity.
Qed.

Lemma bucket_row_in (d : dict) (line row : str) (k : key) :
  In row (dict_get k (bucket_row d line)) ->
  In row (dict_get k d) \/ (row = line /\ is_data_row line = true).
Proof.
  destruct (is_data_row line) eqn:Hdata.
  - assert (Happ : forall k', In row (dict_get k (dict_append k' line d)) ->
                              In row (dict_get k d) \/ (row = line /\ true = true)).
    { intros k'. rewrite dict_get_append. case_bool_decide; [|auto].
      intros Hin. apply in_app_or in Hin as [Hin|[<-|[]]]; auto. }
    unfold SplitByYear.bucket_row.
    repeat match goal with
           | |- context [if ?b then _ else _] => destruct b
           | |- context [match ?o with Some _ => _ | None => _ end] => destruct o
           end; auto; apply Happ.
  - rewrite bucket_row_skip by exact Hdata. auto.
Qed.

(** A bucket holds data rows only. *)
Lemma bucket_rows_in (lines : list str) (d : dict) (row : str) (k : key) :
  In row (dict_get k (fold_left bucket_row lines d)) ->
  In row (dict_get k d) \/ (In row lines /\ is_data_row row = true).
Proof.
  revert d. induction lines as [|line lines IH]; intros d Hin; [auto|].
  simpl in Hin. apply IH in Hin as [Hin|(Hin & Hdata)].
  - apply bucket_row_in in Hin as [Hin|(-> & Hdata)]; [auto|].
    right. split; [left; reflexivity | exact Hdata].
  - right. split; [right; exact Hin | exact Hdata].
Qed.

(** ** Writing the files *)

Lemma write_files_all (input_file : str) (metadata_lines : list str)
    (table_header separator : str) (d : dict) (years : list key)
    (written : list (str * str)) (printed : list message) :
  write_files path_stem path_sibling input_file metadata_lines table_header
    (Some separator) d years written printed
  = inr (written ++ List.map (year_file path_stem path_sibling input_file
                                metadata_lines table_header separator d) years,
         printed ++ List.map (created_line path_stem path_sibling input_file d) years).
Proof.
  revert written printed. induction years as [|year years IH]; intros written printed.
  - simpl. rewrite !app_nil_r. reflexivity.
  - simpl. rewrite IH, <- !app_assoc. reflexivity.
Qed.

Lemma content_start_is_metadata_end (metadata_end : nat) :
  (if (0 <? metadata_end)%nat then metadata_end else O) = metadata_end.
Proof. destruct metadata_end; reflexivity. Qed.

(** C7, as the code has it.  When the script finds the table header (the
    first line with [|], [Name] and [date] from the end of the metadata
    block it scanned on), every line two or more lines below that header
    that is not blank, starts with a pipe once stripped, splits on the
    pipe into at least three cells (so that it has a date cell) and whose
    date cell does not parse, is placed in the [unknown] bucket and
    written to the [_unknown_dates] file, which is the last file written
    and holds the metadata lines with a blank line (when there are any),
    the header line, the line below it and the rows of the bucket; the
    run ends normally.  A line that splits on the pipe into fewer than
    three cells is in no bucket. *)
Theorem unparseable_row_goes_to_unknown (input_file : str) (fs : gmap str str)
    (text : str) (table_start : nat) (header : str) :
  fs !! input_file = Some text ->
  find_header (scan_metadata 0 (readlines text) [] false).2
    (drop (scan_metadata 0 (readlines text) [] false).2 (readlines text))
    = Some (table_start, header) ->
  (forall (i : nat) (row cell : str),
     (table_start + 2 <= i)%nat ->
     readlines text !! i = Some row ->
     truthy (strip row) = true ->
     startswith [PIPE] (strip row) = true ->
     date_cell row = Some cell ->
     parse_date cell = None ->
     exists (separator : str) (unknown_rows : list str) (earlier : list (str * str)),
       readlines text !! (table_start + 1)%nat = Some separator /\
       unknown_rows
         = dict_get Unknown
             (fold_left bucket_row (drop (table_start + 2) (readlines text)) []) /\
       In row unknown_rows /\
       writes (split_markdown_by_year input_file fs)
         = earlier
           ++ [(path_sibling input_file (path_stem input_file ++ lit "_unknown_dates.md"),
                match (scan_metadata 0 (readlines text) [] false).1 with
                | [] => []
                | metadata_lines => concat_str metadata_lines ++ [NL]
                end ++ header ++ separator ++ concat_str unknown_rows)] /\
       exit_code (split_markdown_by_year input_file fs) = 0%Z /\
       stderr (split_markdown_by_year input_file fs) = []) /\
  (forall (row : str) (k : key),
     (length (split PIPE row) < 3)%nat ->
     ~ In row (dict_get k
                 (fold_left bucket_row (drop (table_start + 2) (readlines text)) []))).
Proof.
  intros Hfile Hfind. split.
  - intros i row cell Hi Hrow Hblank Hpipe Hcell Hdate.
    pose proof (lookup_lt_Some _ _ _ Hrow) as Hlen.
    destruct (lookup_lt_is_Some_2 (readlines text) (table_start + 1)) as [separator Hsep];
      [lia|].
    set (d := fold_left bucket_row (drop (table_start + 2) (readlines text)) []).
    assert (Hin : In row (dict_get Unknown d)).
    { apply (bucket_rows_unknown _ [] row cell); try assumption.
      apply list_elem_of_In, (list_elem_of_lookup_2 _ (i - (table_start + 2))).
      rewrite lookup_drop. rewrite <- Hrow. f_equal. lia. }
    assert (Hmem : dict_mem Unknown d = true).
    { apply dict_get_mem. intros Hnil. rewrite Hnil in Hin. destruct Hin. }
    exists separator, (dict_get Unknown d),
      (List.map (year_file path_stem path_sibling input_file
                   (scan_metadata 0 (readlines text) [] false).1 header separator d)
                (List.map Year (sorted (year_keys d)))).
    split; [exact Hsep|]. split; [reflexivity|]. split; [exact Hin|].
    unfold SplitByYear.split_markdown_by_year. rewrite Hfile.
    destruct (scan_metadata 0 (readlines text) [] false) as [metadata_lines metadata_end].
    cbn [fst snd] in *.
    rewrite content_start_is_metadata_end, Hfind, Hsep.
    fold d. rewrite Hmem, write_files_all.
    cbn [writes exit_code stderr app]. rewrite List.map_app.
    split; [|split; reflexivity].
    f_equal. cbn [List.map]. unfold year_file, file_head, output_name.
    rewrite <- app_assoc. destruct metadata_lines; reflexivity.
  - intros row k Hshort Hin.
    apply bucket_rows_in in Hin as [[]|(_ & Hdata)].
    unfold is_data_row in Hdata.
    apply andb_prop in Hdata as (_ & Hlen). apply Nat.leb_le in Hlen. lia.
Qed.

(** The files of the three rows, with the metadata lines as the script
    collects them. *)
Lemma year_bucketing_files (input_file : str) (fs : gmap str str) (text : str)
    (metadata_lines : list str) (metadata_end : nat) (before tail : list str)
    (header separator row2024 row2023 row_unknown : str) :
  strptime_year (lit "November 29, 2024") = Some 2024%Z ->
  strptime_year (lit "December 31, 2023") = Some 2023%Z ->
  strptime_year (lit "not a date") = None ->
  fs !! input_file = Some text ->
  readlines text = before ++ header :: separator :: tail ->
  scan_metadata 0 (readlines text) [] false = (metadata_lines, metadata_end) ->
  (metadata_end <= length before)%nat ->
  Forall (fun l => is_header l = false) (drop metadata_end before) ->
  is_header header = true ->
  List.filter is_data_row tail = [row2024; row2023; row_unknown] ->
  date_cell row2024 = Some (lit "November 29, 2024") ->
  date_cell row2023 = Some (lit "December 31, 2023") ->
  date_cell row_unknown = Some (lit "not a date") ->
  split_markdown_by_year input_file fs =
    {| exit_code := 0;
       writes :=
         [(path_sibling input_file (path_stem input_file ++ lit "_2023.md"),
           file_head metadata_lines header ++ separator ++ row2023);
          (path_sibling input_file (path_stem input_file ++ lit "_2024.md"),
           file_head metadata_lines header ++ separator ++ row2024);
          (path_sibling input_file (path_stem input_file ++ lit "_unknown_dates.md"),
           file_head metadata_lines header ++ separator ++ row_unknown)];
       stdout :=
         [Text (lit "Created: "
                ++ path_sibling input_file (path_stem input_file ++ lit "_2023.md")
                ++ lit " (1 rows)");
          Text (lit "Created: "
                ++ path_sibling input_file (path_stem input_file ++ lit "_2024.md")
                ++ lit " (1 rows)");
          Text (lit "Created: "
                ++ path_sibling input_file (path_stem input_file ++ lit "_unknown_dates.md")
                ++ lit " (1 rows)");
          Text ([NL] ++ lit "Total years: 2");
          Text (lit "Rows with unknown dates: 1")];
       stderr := [] |}.
Proof.
  intros H2024 H2023 Hnone Hfile Hlines Hmeta Hend Hbefore Hheader Hrows
    Hc2024 Hc2023 Hcnone.
  assert (Hdata : forall r, In r [row2024; row2023; row_unknown] ->
            truthy (strip r) = true /\ startswith [PIPE] (strip r) = true).
  { intros r Hr. rewrite <- Hrows in Hr. apply filter_In in Hr as (_ & Hr).
    unfold is_data_row in Hr.
    apply andb_prop in Hr as (Hr & _). apply andb_prop in Hr. exact Hr. }
  destruct (Hdata row2024) as (Hb1 & Hp1); [simpl; auto|].
  destruct (Hdata row2023) as (Hb2 & Hp2); [simpl; auto|].
  destruct (Hdata row_unknown) as (Hb3 & Hp3); [simpl; auto|].
  assert (Hd : fold_left bucket_row tail []
               = [(Year 2024, [row2024]); (Year 2023, [row2023]);
                  (Unknown, [row_unknown])]).
  { rewrite bucket_rows_filter, Hrows. cbn [fold_left].
    rewrite (bucket_row_data _ row2024 _ Hb1 Hp1 Hc2024).
    replace (parse_date (lit "November 29, 2024")) with (Some 2024%Z)
      by (rewrite <- H2024; reflexivity).
    rewrite (bucket_row_data _ row2023 _ Hb2 Hp2 Hc2023).
    replace (parse_date (lit "December 31, 2023")) with (Some 2023%Z)
      by (rewrite <- H2023; reflexivity).
    rewrite (bucket_row_data _ row_unknown _ Hb3 Hp3 Hcnone).
    replace (parse_date (lit "not a date")) with (@None Z)
      by (rewrite <- Hnone; reflexivity).
    reflexivity. }
  unfold SplitByYear.split_markdown_by_year.
  rewrite Hfile, Hmeta, content_start_is_metadata_end, Hlines.
  rewrite drop_app_le by exact Hend.
  rewrite (find_header_first _ _ _ _ Hbefore Hheader).
  rewrite length_drop.
  replace (metadata_end + (length before - metadata_end))%nat with (length before) by lia.
  replace (before ++ header :: separator :: tail)
    with ((before ++ [header]) ++ separator :: tail)
    by (rewrite <- app_assoc; reflexivity).
  replace (length before + 1)%nat with (length (before ++ [header]))
    by (rewrite length_app; reflexivity).
  rewrite list_lookup_middle by reflexivity.
  replace (length before + 2)%nat with (length ((before ++ [header]) ++ [separator]))
    by (rewrite !length_app; simpl; lia).
  replace ((before ++ [header]) ++ separator :: tail)
    with (((before ++ [header]) ++ [separator]) ++ tail)
    by (rewrite <- !app_assoc; reflexivity).
  rewrite drop_app_length, Hd.
  rewrite write_files_all.
  unfold year_file, created_line, concat_str. simpl.
  rewrite !app_nil_r. reflexivity.
Qed.

(** C4, as the code has it.  The document either has no line that strips
    to [---], or opens with a frontmatter block: a first line that strips
    to [---], closed by the next line that strips to [---].  After the
    block come lines that are no header, the header line (the first with
    [|], [Name] and [date]), the separator line, and lines of which
    exactly three are data rows, dated November 29, 2024, December 31,
    2023 and "not a date".  Exactly three files
    are written: the 2023 file, then the 2024 file, then the unknown-dates
    file, each with the frontmatter block followed by a blank line (when
    the document opens with one), the header line, the separator line and
    its one row. *)
Theorem year_bucketing_example (input_file : str) (fs : gmap str str) (text : str)
    (frontmatter before tail : list str)
    (header separator row2024 row2023 row_unknown : str) :
  strptime_year (lit "November 29, 2024") = Some 2024%Z ->
  strptime_year (lit "December 31, 2023") = Some 2023%Z ->
  strptime_year (lit "not a date") = None ->
  fs !! input_file = Some text ->
  readlines text = frontmatter ++ before ++ header :: separator :: tail ->
  (frontmatter = [] /\ Forall (fun l => strip l <> lit "---") (readlines text)) \/
  (exists (opening closing : str) (inner : list str),
     frontmatter = opening :: inner ++ [closing] /\
     strip opening = lit "---" /\
     Forall (fun l => strip l <> lit "---") inner /\
     strip closing = lit "---") ->
  Forall (fun l => is_header l = false) before ->
  is_header header = true ->
  List.filter is_data_row tail = [row2024; row2023; row_unknown] ->
  date_cell row2024 = Some (lit "November 29, 2024") ->
  date_cell row2023 = Some (lit "December 31, 2023") ->
  date_cell row_unknown = Some (lit "not a date") ->
  let head :=
    match frontmatter with
    | [] => []
    | _ => concat_str frontmatter ++ [NL]
    end ++ header ++ separator in
  split_markdown_by_year input_file fs =
    {| exit_code := 0;
       writes :=
         [(path_sibling input_file (path_stem input_file ++ lit "_2023.md"),
           head ++ row2023);
          (path_sibling input_file (path_stem input_file ++ lit "_2024.md"),
           head ++ row2024);
          (path_sibling input_file (path_stem input_file ++ lit "_unknown_dates.md"),
           head ++ row_unknown)];
       stdout :=
         [Text (lit "Created: "
                ++ path_sibling input_file (path_stem input_file ++ lit "_2023.md")
                ++ lit " (1 rows)");
          Text (lit "Created: "
                ++ path_sibling input_file (path_stem input_file ++ lit "_2024.md")
                ++ lit " (1 rows)");
          Text (lit "Created: "
                ++ path_sibling input_file (path_stem input_file ++ lit "_unknown_dates.md")
                ++ lit " (1 rows)");
          Text ([NL] ++ lit "Total years: 2");
          Text (lit "Rows with unknown dates: 1")];
       stderr := [] |}.
Proof.
  intros H2024 H2023 Hnone Hfile Hlines Hshape Hbefore Hheader Hrows
    Hc2024 Hc2023 Hcnone head.
  assert (Hmeta : scan_metadata 0 (readlines text) [] false
                  = (frontmatter, length frontmatter)).
  { destruct Hshape as [(-> & Hplain)|(opening & closing & inner & -> & Ho & Hi & Hc)].
    - apply scan_metadata_absent, Hplain.
    - rewrite Hlines. cbn [app]. rewrite <- app_assoc. cbn [app].
      rewrite scan_metadata_frontmatter by assumption.
      rewrite length_cons, length_app. cbn [length]. do 2 f_equal. lia. }
  rewrite app_assoc in Hlines.
  rewrite (year_bucketing_files input_file fs text frontmatter (length frontmatter)
             (frontmatter ++ before) tail header separator row2024 row2023 row_unknown);
    try assumption.
  - unfold head, file_head. rewrite <- !app_assoc. reflexivity.
  - rewrite length_app. lia.
  - rewrite drop_app_length. exact Hbefore.
Qed.

End Facts.

Lemma script_reports_and_returns_witness :
  let run := SplitByYear.script strptime_year_c posix_stem posix_sibling no_faults
               [lit "split_by_year.py"; lit "log.md"] in
  exit_code (run ∅) = 0%Z /\ writes (run ∅) = [] /\
  exit_code (run {[ lit "log.md" := lit "just text
" ]}) = 0%Z /\
  writes (run {[ lit "log.md" := lit "just text
" ]}) = [].
Proof.
  intros run.
  destruct (script_reports_and_returns strptime_year_c posix_stem posix_sibling
              no_faults (lit "split_by_year.py") (lit "log.md") ∅) as (Hmissing & _).
  destruct (script_reports_and_returns strptime_year_c posix_stem posix_sibling
              no_faults (lit "split_by_year.py") (lit "log.md")
              {[ lit "log.md" := lit "just text
" ]}) as (_ & Hnoheader).
  unfold run.
  rewrite Hmissing by (apply lookup_empty || reflexivity).
  rewrite (Hnoheader (lit "just text
")).
  - repeat split.
  - apply lookup_singleton_eq.
  - vm_compute. repeat constructor.
Defined.

(** C6, as the specification words it, fails: in both cases the exit code
    is 0. *)
Lemma script_error_exit_code_zero :
  let run := SplitByYear.script strptime_year_c posix_stem posix_sibling no_faults
               [lit "split_by_year.py"; lit "log.md"] in
  (∅ : gmap str str) !! lit "log.md" = None /\
  read_fault no_faults (lit "log.md") = None /\
  exit_code (run ∅) = 0%Z /\
  Forall (fun l => is_header l = false) (readlines (lit "just text
")) /\
  exit_code (run {[ lit "log.md" := lit "just text
" ]}) = 0%Z.
Proof.
  split; [apply lookup_empty|].
  split; [reflexivity|].
  split; [vm_compute; reflexivity|].
  split; [vm_compute; repeat constructor|].
  vm_compute. reflexivity.
Qed.

Lemma year_bucketing_example_witness :
  let text := lit "---
title: Log
---

# Entries
| Name | date | note |
| --- | --- | --- |
| a | November 29, 2024 | x |
| b | December 31, 2023 | y |
| c | not a date | z |
" in
  let head := lit "---
title: Log
---

| Name | date | note |
| --- | --- | --- |
" in
  writes (split_markdown_by_year strptime_year_c posix_stem posix_sibling no_faults
            (lit "notes/log.md") {[ lit "notes/log.md" := text ]})
  = [(lit "notes/log_2023.md", head ++ lit "| b | December 31, 2023 | y |
");
     (lit "notes/log_2024.md", head ++ lit "| a | November 29, 2024 | x |
");
     (lit "notes/log_unknown_dates.md", head ++ lit "| c | not a date | z |
")].
Proof.
  intros text head.
  rewrite (year_bucketing_example strptime_year_c posix_stem posix_sibling no_faults
             (lit "notes/log.md") {[ lit "notes/log.md" := text ]} text
             [lit "---
"; lit "title: Log
"; lit "---
"]
             [lit "
"; lit "# Entries
"]
             [lit "| a | November 29, 2024 | x |
"; lit "| b | December 31, 2023 | y |
"; lit "| c | not a date | z |
"]
             (lit "| Name | date | note |
") (lit "| --- | --- | --- |
")
             (lit "| a | November 29, 2024 | x |
")
             (lit "| b | December 31, 2023 | y |
")
             (lit "| c | not a date | z |
")).
  - vm_compute. reflexivity.
  - vm_compute. reflexivity.
  - vm_compute. reflexivity.
  - vm_compute. reflexivity.
  - apply lookup_singleton_eq.
  - vm_compute. reflexivity.
  - right. exists (lit "---
"), (lit "---
"), [lit "title: Log
"].
    split; [reflexivity|]. split; [vm_compute; reflexivity|].
    split; [|vm_compute; reflexivity].
    constructor; [vm_compute; discriminate | constructor].
  - vm_compute. repeat constructor.
  - vm_compute. reflexivity.
  - vm_compute. reflexivity.
  - vm_compute. reflexivity.
  - vm_compute. reflexivity.
  - vm_compute. reflexivity.
Defined.

(** C4, as the specification words it, fails.  The first document has no
    frontmatter block, only a first line [---] that nothing closes, and a
    table with the three rows.  The script takes every line from the
    [---] on as metadata lines, so each of the three files starts with the
    whole document and a blank line: each holds all three data rows above
    its header line, not the one row of its bucket.  The second document
    has the three rows under a header without [Name] and [date]: the
    script does not find the table and writes no file. *)
Lemma unclosed_delimiter_copies_document :
  let text := lit "---
| Name | date | note |
| --- | --- | --- |
| a | November 29, 2024 | x |
| b | December 31, 2023 | y |
| c | not a date | z |
" in
  let table := lit "| Name | date | note |
| --- | --- | --- |
" in
  let text' := lit "| Title | when | note |
| --- | --- | --- |
| a | November 29, 2024 | x |
| b | December 31, 2023 | y |
| c | not a date | z |
" in
  let rows := [lit "| a | November 29, 2024 | x |
"; lit "| b | December 31, 2023 | y |
"; lit "| c | not a date | z |
"] in
  (Forall (fun l => strip l <> lit "---") (tl (readlines text)) /\
   List.filter is_data_row (drop 3 (readlines text)) = rows /\
   writes (split_markdown_by_year strptime_year_c posix_stem posix_sibling no_faults
             (lit "notes/log.md") {[ lit "notes/log.md" := text ]})
   = [(lit "notes/log_2023.md",
       text ++ [NL] ++ table ++ lit "| b | December 31, 2023 | y |
");
      (lit "notes/log_2024.md",
       text ++ [NL] ++ table ++ lit "| a | November 29, 2024 | x |
");
      (lit "notes/log_unknown_dates.md",
       text ++ [NL] ++ table ++ lit "| c | not a date | z |
")]) /\
  (Forall (fun l => strip l <> lit "---") (readlines text') /\
   List.filter is_data_row (drop 2 (readlines text')) = rows /\
   List.map date_cell rows
   = [Some (lit "November 29, 2024"); Some (lit "December 31, 2023");
      Some (lit "not a date")] /\
   writes (split_markdown_by_year strptime_year_c posix_stem posix_sibling no_faults
             (lit "notes/log.md") {[ lit "notes/log.md" := text' ]}) = []).
Proof.
  split.
  - split; [vm_compute; repeat constructor; discriminate|].
    split; vm_compute; reflexivity.
  - split; [vm_compute; repeat constructor; discriminate|].
    repeat split; vm_compute; reflexivity.
Qed.

Lemma unparseable_row_goes_to_unknown_witness :
  let text := lit "| Name | date |
| --- | --- |
| a | November 29, 2024 |
| b | sometime in May |
" in
  let run := split_markdown_by_year strptime_year_c posix_stem posix_sibling no_faults
               (lit "log.md") {[ lit "log.md" := text ]} in
  exists separator unknown_rows earlier,
    In (lit "| b | sometime in May |
") unknown_rows /\
    writes run
      = earlier
        ++ [(lit "log_unknown_dates.md",
             lit "| Name | date |
" ++ separator ++ concat_str unknown_rows)] /\
    exit_code run = 0%Z.
Proof.
  intros text run.
  destruct (unparseable_row_goes_to_unknown strptime_year_c posix_stem posix_sibling
              no_faults (lit "log.md") {[ lit "log.md" := text ]} text 0
              (lit "| Name | date |
")) as (Hrows & _).
  - apply lookup_singleton_eq.
  - vm_compute. reflexivity.
  - destruct (Hrows 3%nat (lit "| b | sometime in May |
") (lit "sometime in May"))
      as (separator & unknown_rows & earlier & _ & _ & Hin & Hwrites & Hexit & _).
    + simpl. lia.
    + vm_compute. reflexivity.
    + vm_compute. reflexivity.
    + vm_compute. reflexivity.
    + vm_compute. reflexivity.
    + vm_compute. reflexivity.
    + exists separator, unknown_rows, earlier.
      split; [exact Hin|]. split; [exact Hwrites | exact Hexit].
Defined.

(** C7, as the specification words it, fails, in two ways.  A line after
    the separator row that is not blank and starts with a pipe, but splits
    into fewer than three cells, has no date to parse (the date column of
    line 96 is then the empty string) and is skipped by the guard of line
    93; it is in no bucket and in no file.  And when two lines that strip
    to [---] follow the table, the script looks for the header after the
    second of them, finds none and writes nothing: the row whose date
    does not parse is in no file. *)
Lemma short_row_is_dropped :
  let text := lit "| Name | date |
| --- | --- |
| a | November 29, 2024 |
|no date
" in
  let row := lit "|no date
" in
  let columns := List.map strip (split PIPE row) in
  let run := split_markdown_by_year strptime_year_c posix_stem posix_sibling no_faults
               (lit "log.md") {[ lit "log.md" := text ]} in
  let text' := lit "| Name | date | note |
| --- | --- | --- |
| a | sometime in May | x |
---
more
---
" in
  let row' := lit "| a | sometime in May | x |
" in
  let run' := split_markdown_by_year strptime_year_c posix_stem posix_sibling no_faults
                (lit "log.md") {[ lit "log.md" := text' ]} in
  (readlines text !! 3%nat = Some row /\
   truthy (strip row) = true /\
   startswith [PIPE] (strip row) = true /\
   parse_date strptime_year_c
     (if (2 <? length columns)%nat then nth 2 columns [] else []) = None /\
   fold_left (bucket_row strptime_year_c) (drop 2 (readlines text)) []
     = [(Year 2024, [lit "| a | November 29, 2024 |
"])] /\
   writes run
     = [(lit "log_2024.md", lit "| Name | date |
| --- | --- |
| a | November 29, 2024 |
")] /\
   exit_code run = 0%Z) /\
  (is_header (lit "| Name | date | note |
") = true /\
   readlines text' !! 2%nat = Some row' /\
   is_data_row row' = true /\
   date_cell row' = Some (lit "sometime in May") /\
   parse_date strptime_year_c (lit "sometime in May") = None /\
   scan_metadata 0 (readlines text') [] false
     = ([lit "---
"; lit "more
"; lit "---
"], 6%nat) /\
   writes run' = [] /\
   stdout run' = [Text (lit
     "Error: Could not find table header with 'Name' and 'date' columns.")]).
Proof. vm_compute. repeat split; reflexivity. Qed.

End SplitByYearFacts.

(** * Further properties of reverse_table.py *)

Module ReverseTableExtra.
Import Py Run ReverseTable ReverseTableScript ReverseTableFacts.

Lemma process_table_length (rows : list str) (keep_header : bool) :
  length (process_table rows keep_header) = length rows.
Proof. apply Permutation_length, process_table_perm. Qed.

Lemma flush_blocks_length (keep_header : bool) (lines pending : list str) :
  length (flush_blocks keep_header pending lines)
  = (length pending + length lines)%nat.
Proof.
  rewrite (Permutation_length (flush_blocks_perm keep_header lines pending)).
  apply length_app.
Qed.

Lemma flush_blocks_lookup (keep_header : bool) (lines pending : list str)
    (i : nat) (l : str) :
  lines !! i = Some l ->
  is_table_line l = false ->
  flush_blocks keep_header pending lines !! (length pending + i)%nat = Some l.
Proof.
  revert pending i. induction lines as [|l0 lines IH]; intros pending i Hi Hl.
  - discriminate.
  - simpl. destruct i as [|i]; simpl in Hi.
    + injection Hi as ->. rewrite Hl.
      rewrite Nat.add_0_r, <- (process_table_length pending keep_header).
      apply list_lookup_middle. reflexivity.
    + destruct (is_table_line l0).
      * replace (length pending + S i)%nat with (length (pending ++ [l0]) + i)%nat
          by (rewrite length_app; simpl; lia).
        apply IH; assumption.
      * rewrite lookup_app_r by (rewrite process_table_length; lia).
        rewrite process_table_length.
        replace (length pending + S i - length pending)%nat with (S i) by lia.
        simpl. apply (IH [] i Hi Hl).
Qed.

Lemma flush_blocks_no_table (keep_header : bool) (lines : list str) :
  Forall (fun l => is_table_line l = false) lines ->
  flush_blocks keep_header [] lines = lines.
Proof.
  induction 1 as [|l lines Hl _ IH]; simpl; [reflexivity|].
  rewrite Hl, IH. reflexivity.
Qed.

Lemma contains_char (c : char) (s : str) :
  contains [c] s = true <-> In c s.
Proof.
  induction s as [|x s IH].
  - split; [discriminate | intros []].
  - change (contains [c] (x :: s)) with ((c =? x) && true || contains [c] s).
    rewrite orb_true_iff, andb_true_r, N.eqb_eq, IH. simpl.
    split; intros [?|?]; auto.
Qed.

Lemma in_split_line (c x : char) (s l : str) :
  In l (split c s) -> In x l -> In x s.
Proof.
  revert l. induction s as [|y s IH]; intros l; simpl.
  - intros [<-|[]] [].
  - destruct (N.eqb_spec y c) as [->|Hne].
    + intros [<-|Hl] Hx; [destruct Hx|]. right. eapply IH; eassumption.
    + pose proof (split_not_nil c s) as Hnn.
      destruct (split c s) as [|h t]; [contradiction|].
      intros [<-|Hl] Hx.
      * destruct Hx as [->|Hx]; [left; reflexivity|].
        right. apply (IH h); [left; reflexivity | exact Hx].
      * right. apply (IH l); [right; exact Hl | exact Hx].
Qed.

Lemma split_lines_of_reversed (content : str) (keep_header : bool) :
  split NL (reverse_markdown_table content keep_header)
  = flush_blocks keep_header [] (split NL content).
Proof.
  unfold reverse_markdown_table. rewrite reverse_lines_flush.
  pose proof (flush_blocks_perm keep_header (split NL content) []) as Hperm.
  simpl in Hperm.
  apply split_join.
  - intros Hnil. rewrite Hnil in Hperm.
    apply Permutation_nil in Hperm. exact (split_not_nil NL content Hperm).
  - eapply Permutation_Forall; [symmetry; exact Hperm|].
    apply split_without_sep.
Qed.

(** X1.  In either mode the lines of the result are the lines of the input in
    another order: no line is lost, added or changed. *)
Theorem reverse_markdown_table_permutes_lines (content : str) (keep_header : bool) :
  Permutation (split NL (reverse_markdown_table content keep_header))
              (split NL content).
Proof.
  rewrite split_lines_of_reversed.
  exact (flush_blocks_perm keep_header (split NL content) []).
Qed.

(** X2.  In either mode the result has as many lines as the input, and every
    line without a pipe is at the position it had. *)
Theorem reverse_markdown_table_keeps_other_lines (content : str)
    (keep_header : bool) :
  length (split NL (reverse_markdown_table content keep_header))
    = length (split NL content) /\
  forall (i : nat) (l : str),
    split NL content !! i = Some l ->
    ~ In PIPE l ->
    split NL (reverse_markdown_table content keep_header) !! i = Some l.
Proof.
  rewrite split_lines_of_reversed. split.
  - apply (flush_blocks_length keep_header (split NL content) []).
  - intros i l Hi Hpipe.
    apply (flush_blocks_lookup keep_header (split NL content) [] i l Hi).
    unfold is_table_line.
    destruct (contains [PIPE] l) eqn:Hc; [|reflexivity].
    apply contains_char in Hc. contradiction.
Qed.

Lemma reverse_markdown_table_keeps_other_lines_witness :
  split NL (reverse_markdown_table (lit "# Log
| a |
| - |
| 1 |
| 2 |
end") true) !! 5%nat = Some (lit "end").
Proof.
  apply (reverse_markdown_table_keeps_other_lines _ true).
  - reflexivity.
  - vm_compute. intuition discriminate.
Defined.

(** X3.  A text without a pipe is returned as it is, in either mode. *)
Theorem reverse_markdown_table_without_pipe (content : str) (keep_header : bool) :
  ~ In PIPE content ->
  reverse_markdown_table content keep_header = content.
Proof.
  intros Hpipe. unfold reverse_markdown_table.
  rewrite reverse_lines_flush, flush_blocks_no_table; [apply join_split|].
  apply List.Forall_forall. intros l Hl.
  unfold is_table_line.
  destruct (contains [PIPE] l) eqn:Hc; [|reflexivity].
  apply contains_char in Hc. exfalso. apply Hpipe.
  exact (in_split_line NL PIPE content l Hl Hc).
Qed.

Lemma reverse_markdown_table_without_pipe_witness :
  reverse_markdown_table (lit "# Title

text") false = lit "# Title

text".
Proof.
  apply reverse_markdown_table_without_pipe.
  vm_compute. intuition discriminate.
Defined.

(** ** No-header reversal of a well-formed table *)

Lemma no_header_shape (h s l : str) (mid : list str) :
  looks_like_separator s = true ->
  looks_like_separator l = false ->
  Forall (fun r => looks_like_separator r = false) mid ->
  process_table (h :: s :: mid ++ [l]) false = l :: s :: rev mid ++ [h].
Proof.
  intros Hs Hl Hmid. unfold process_table.
  destruct (Nat.leb_spec (length (h :: s :: mid ++ [l])) 1) as [H1|_].
  { simpl in H1. lia. }
  destruct (Nat.leb_spec (length (h :: s :: mid ++ [l])) 2) as [H2|_].
  { simpl in H2. rewrite length_app in H2. simpl in H2. lia. }
  assert (Hrev : rev (h :: s :: mid ++ [l]) = (l :: rev mid) ++ s :: [h]).
  { simpl. rewrite rev_app_distr. simpl. rewrite <- !app_assoc. reflexivity. }
  rewrite Hrev.
  rewrite (find_separator_idx_first (l :: rev mid) [h] s 0);
    [|constructor; [exact Hl | apply List.Forall_rev, Hmid] | exact Hs].
  cbn [Nat.add].
  rewrite lookup_middle, pop_at_middle.
  destruct mid as [|m mid']; [reflexivity|].
  assert (Hne : (length (l :: rev (m :: mid')) =? 1)%nat = false).
  { apply Nat.eqb_neq. simpl. rewrite length_app. simpl. lia. }
  rewrite Hne. reflexivity.
Qed.

(** X4.  No-header reversal of a table whose second row is its only
    separator-like row puts the last data row first and the header last,
    keeps the separator second, and reverses the data rows in between. *)
Theorem no_header_reversal_of_table (header separator last_row : str)
    (rows : list str) :
  looks_like_separator separator = true ->
  looks_like_separator last_row = false ->
  Forall (fun r => looks_like_separator r = false) rows ->
  process_table (header :: separator :: rows ++ [last_row]) false
  = last_row :: separator :: rev rows ++ [header].
Proof. apply no_header_shape. Qed.

Lemma no_header_reversal_of_table_witness :
  process_table [lit "| Name |"; lit "| --- |"; lit "| a |"; lit "| b |"; lit "| c |"] false
  = [lit "| c |"; lit "| --- |"; lit "| b |"; lit "| a |"; lit "| Name |"].
Proof.
  apply (no_header_reversal_of_table (lit "| Name |") (lit "| --- |") (lit "| c |")
           [lit "| a |"; lit "| b |"]).
  - reflexivity.
  - reflexivity.
  - repeat constructor.
Defined.

(** X5.  On a table whose second row is its only separator-like row, no-header
    reversal undoes itself. *)
Theorem no_header_reversal_twice (header separator : str) (data_rows : list str) :
  looks_like_separator separator = true ->
  looks_like_separator header = false ->
  Forall (fun r => looks_like_separator r = false) data_rows ->
  process_table (process_table (header :: separator :: data_rows) false) false
  = header :: separator :: data_rows.
Proof.
  intros Hs Hh Hdata.
  induction data_rows as [|l mid _] using rev_ind.
  - reflexivity.
  - apply Forall_app in Hdata as (Hmid & Hl).
    inversion Hl as [|? ? Hl' _]; subst.
    rewrite (no_header_shape header separator l mid Hs Hl' Hmid).
    rewrite (no_header_shape l separator header (rev mid) Hs Hh
               (List.Forall_rev Hmid)).
    rewrite rev_involutive. reflexivity.
Qed.

Lemma no_header_reversal_twice_witness :
  let table := [lit "| Name |"; lit "| :-: |"; lit "| a |"; lit "| b |"; lit "| c |"] in
  process_table (process_table table false) false = table.
Proof.
  intros table.
  apply (no_header_reversal_twice (lit "| Name |") (lit "| :-: |")
           [lit "| a |"; lit "| b |"; lit "| c |"]).
  - reflexivity.
  - reflexivity.
  - repeat constructor.
Defined.

(** ** Running the script twice *)

Lemma universal_newlines_without_CR (s : str) : ~ In CR (universal_newlines s).
Proof.
  remember (length s) as n eqn:Hn.
  assert (Hle : (length s <= n)%nat) by lia. clear Hn.
  revert s Hle. induction n as [|n IH]; intros s Hle.
  { destruct s; [intros [] | simpl in Hle; lia]. }
  destruct s as [|c s]; [intros []|]. simpl in Hle.
  cbn [universal_newlines].
  destruct (N.eqb_spec c CR) as [->|Hne].
  - intros [Heq|Hin]; [discriminate|].
    destruct s as [|d s']; [destruct Hin|].
    simpl in Hle.
    destruct (d =? NL); revert Hin; apply IH; simpl; lia.
  - intros [Heq|Hin]; [congruence|].
    revert Hin. apply IH. lia.
Qed.

Lemma universal_newlines_id (s : str) : ~ In CR s -> universal_newlines s = s.
Proof.
  induction s as [|c s IH]; intros Hcr; [reflexivity|].
  cbn [universal_newlines].
  destruct (N.eqb_spec c CR) as [->|Hne]; [exfalso; apply Hcr; left; reflexivity|].
  rewrite IH; [reflexivity|]. intros Hin. apply Hcr. right. exact Hin.
Qed.

Lemma in_join (x : char) (sep : str) (ls : list str) :
  In x (join sep ls) -> In x sep \/ exists l, In l ls /\ In x l.
Proof.
  induction ls as [|l ls IH]; [intros []|].
  destruct ls as [|l' ls'].
  - simpl. intros Hin. right. exists l. auto.
  - change (join sep (l :: l' :: ls')) with (l ++ sep ++ join sep (l' :: ls')).
    rewrite !in_app_iff. intros [Hin|[Hin|Hin]].
    + right. exists l. split; [left; reflexivity | exact Hin].
    + left. exact Hin.
    + destruct (IH Hin) as [Hsep|(l0 & Hl0 & Hx)]; [left; exact Hsep|].
      right. exists l0. split; [right; exact Hl0 | exact Hx].
Qed.

Lemma reverse_markdown_table_without_CR (content : str) (keep_header : bool) :
  ~ In CR content -> ~ In CR (reverse_markdown_table content keep_header).
Proof.
  intros Hcr Hin. unfold reverse_markdown_table in Hin.
  rewrite reverse_lines_flush in Hin.
  apply in_join in Hin as [Hsep|(l & Hl & Hx)].
  - destruct Hsep as [Heq|[]]. discriminate.
  - apply Hcr.
    apply (in_split_line NL CR content l); [|exact Hx].
    eapply Permutation_in; [|exact Hl].
    exact (flush_blocks_perm keep_header (split NL content) []).
Qed.

Lemma reverse_markdown_table_twice (content : str) :
  reverse_markdown_table (reverse_markdown_table content true) true = content.
Proof.
  unfold reverse_markdown_table at 1.
  rewrite reverse_lines_flush, split_lines_of_reversed.
  rewrite (flush_blocks_twice (split NL content) [] (List.Forall_nil _)).
  apply join_split.
Qed.

(** X6.  Reversing a file in place twice, with the header kept, on a
    system where the file can be written, leaves the file with the text
    it had, its line ends read as "\n"; no other file is touched.  The
    file is written before the success line is printed: each of the two
    runs ends with exit code 0 when that line can be printed and with
    exit code 1 when printing it fails, and the file is as said in both
    cases. *)
Theorem main_in_place_twice (os : faults) (a : args) (fs : gmap str str) (text : str) :
  fs !! input_file a = Some text ->
  output_file a = None ->
  no_header a = false ->
  write_fault os (input_file a) = None ->
  let fs1 := apply_writes fs (writes (main os a fs)) in
  let code := match print_fault os (success_line a) with
              | None => 0%Z
              | Some _ => 1%Z
              end in
  exit_code (main os a fs) = code /\
  exit_code (main os a fs1) = code /\
  fs1 = <[input_file a := reverse_markdown_table (universal_newlines text) true]> fs /\
  apply_writes fs1 (writes (main os a fs1))
    = <[input_file a := universal_newlines text]> fs.
Proof.
  intros Hfile Hout Hnh Hwrite.
  assert (Htarget : target a = input_file a).
  { unfold target. rewrite Hout. reflexivity. }
  assert (Hmain : forall fs' text',
            fs' !! input_file a = Some text' ->
            writes (main os a fs')
              = [(input_file a, reverse_markdown_table (universal_newlines text') true)]
            /\ exit_code (main os a fs')
               = match print_fault os (success_line a) with
                 | None => 0%Z
                 | Some _ => 1%Z
                 end).
  { intros fs' text' Hfs'. unfold main. rewrite Hnh, Hfs', Htarget, Hwrite.
    destruct (print_fault os (success_line a)); split; reflexivity. }
  intros fs1 code.
  destruct (Hmain fs text Hfile) as (Hw & He).
  assert (Hfs1 : fs1 = <[input_file a :=
                    reverse_markdown_table (universal_newlines text) true]> fs).
  { unfold fs1. rewrite Hw. reflexivity. }
  assert (Hlook : fs1 !! input_file a
                  = Some (reverse_markdown_table (universal_newlines text) true)).
  { rewrite Hfs1. apply lookup_insert_eq. }
  destruct (Hmain fs1 _ Hlook) as (Hw1 & He1).
  split; [exact He|]. split; [exact He1|]. split; [exact Hfs1|].
  rewrite Hw1. cbn [apply_writes fold_left fst snd].
  rewrite universal_newlines_id
    by apply reverse_markdown_table_without_CR, universal_newlines_without_CR.
  rewrite reverse_markdown_table_twice, Hfs1.
  apply insert_insert_eq.
Qed.

Lemma main_in_place_twice_witness :
  let a := {| input_file := lit "log.md"; output_file := None; no_header := false |} in
  let text := lit "| Name |
| --- |
| a |
| b |
" in
  let fs : gmap str str := {[ lit "log.md" := text ]} in
  let fs1 := apply_writes fs (writes (main no_faults a fs)) in
  exit_code (main no_faults a fs) = 0%Z /\
  exit_code (main no_faults a fs1) = 0%Z /\
  fs1 !! lit "log.md" = Some (lit "| Name |
| --- |
| b |
| a |
") /\
  apply_writes fs1 (writes (main no_faults a fs1)) = fs.
Proof.
  intros a text fs fs1.
  destruct (main_in_place_twice no_faults a fs text) as (Hcode & Hcode1 & _ & Htwice).
  - apply lookup_singleton_eq.
  - reflexivity.
  - reflexivity.
  - reflexivity.
  - split; [exact Hcode|]. split; [exact Hcode1|].
    split; [vm_compute; reflexivity|].
    fold fs1 in Htwice. rewrite Htwice.
    unfold fs. rewrite insert_singleton_eq. reflexivity.
Defined.

End ReverseTableExtra.

(** * Further properties of reorder_columns.py *)

Module ReorderColumnsExtra.
Import Py Run ReorderColumns ReverseTableFacts ReorderColumnsFacts.

(** ** The frontmatter extractor *)

Lemma scan_frontmatter_partition (rest frontmatter fm body : list str) :
  scan_frontmatter frontmatter rest = Some (fm, body) ->
  fm ++ body = frontmatter ++ rest.
Proof.
  revert frontmatter. induction rest as [|line rest IH]; intros frontmatter; simpl.
  - discriminate.
  - destruct (startswith (lit "---") (strip line)).
    + intros [= <- <-]. rewrite <- app_assoc. reflexivity.
    + intros H. rewrite (IH _ H), <- app_assoc. reflexivity.
Qed.

(** X7.  The extractor only cuts the lines in two: the frontmatter followed by
    the remaining lines is the input, whatever the input. *)
Theorem parse_frontmatter_partition (lines : list str) :
  (parse_frontmatter lines).1 ++ (parse_frontmatter lines).2 = lines.
Proof.
  destruct lines as [|first tail]; [reflexivity|].
  unfold parse_frontmatter.
  destruct (negb (startswith (lit "---") (strip first))); [reflexivity|].
  destruct (scan_frontmatter [first] tail) as [[fm body]|] eqn:Hscan; [|reflexivity].
  simpl. apply (scan_frontmatter_partition _ _ _ _ Hscan).
Qed.

Lemma scan_frontmatter_closed (inner body frontmatter : list str) (closing : str) :
  Forall (fun l => startswith (lit "---") (strip l) = false) inner ->
  startswith (lit "---") (strip closing) = true ->
  scan_frontmatter frontmatter (inner ++ closing :: body)
  = Some (frontmatter ++ inner ++ [closing], body).
Proof.
  intros Hinner Hclose. revert frontmatter.
  induction Hinner as [|l inner Hl _ IH]; intros frontmatter; simpl.
  - rewrite Hclose. reflexivity.
  - rewrite Hl, IH, <- app_assoc. reflexivity.
Qed.

(** X8.  When the first line opens a block and a later line is the first to
    close it, the frontmatter is the lines up to and including that line,
    and the rest is what follows it. *)
Theorem parse_frontmatter_block (opening closing : str) (inner body : list str) :
  startswith (lit "---") (strip opening) = true ->
  Forall (fun l => startswith (lit "---") (strip l) = false) inner ->
  startswith (lit "---") (strip closing) = true ->
  parse_frontmatter (opening :: inner ++ closing :: body)
  = (opening :: inner ++ [closing], body).
Proof.
  intros Hopen Hinner Hclose. unfold parse_frontmatter.
  rewrite Hopen. simpl.
  rewrite (scan_frontmatter_closed inner body [opening] closing Hinner Hclose).
  reflexivity.
Qed.

Lemma parse_frontmatter_block_witness :
  parse_frontmatter [lit "---"; lit "title: x"; lit "tags: y"; lit "---"; lit "text"; lit "---"]
  = ([lit "---"; lit "title: x"; lit "tags: y"; lit "---"], [lit "text"; lit "---"]).
Proof.
  apply (parse_frontmatter_block (lit "---") (lit "---")
           [lit "title: x"; lit "tags: y"] [lit "text"; lit "---"]).
  - reflexivity.
  - repeat constructor.
  - reflexivity.
Defined.

(** ** Rows and their cells *)

Lemma strip_between (a b : char) (mid : str) :
  isspace a = false -> isspace b = false ->
  strip (a :: mid ++ [b]) = a :: mid ++ [b].
Proof.
  intros Ha Hb. unfold strip, lstrip, rstrip.
  cbn [dropwhile]. rewrite Ha.
  change (a :: mid ++ [b]) with ((a :: mid) ++ [b]).
  rewrite rev_app_distr. cbn [rev app dropwhile]. rewrite Hb.
  change (b :: rev mid ++ [a]) with (rev [b] ++ rev (a :: mid)).
  rewrite <- rev_app_distr, rev_involutive. reflexivity.
Qed.

Lemma join_with_empty_last (c : char) (cells : list str) :
  cells <> [] -> join [c] (cells ++ [[]]) = join [c] cells ++ [c].
Proof.
  induction cells as [|x cells IH]; [contradiction|]. intros _.
  destruct cells as [|y cells'].
  - reflexivity.
  - change (join [c] ((x :: y :: cells') ++ [[]]))
      with (x ++ [c] ++ join [c] ((y :: cells') ++ [[]])).
    rewrite IH by discriminate.
    change (join [c] (x :: y :: cells')) with (x ++ [c] ++ join [c] (y :: cells')).
    rewrite <- !app_assoc. reflexivity.
Qed.

Lemma split_formatted_row (cells : list str) (original : str) :
  cells <> [] ->
  Forall (fun c => ~ In PIPE c) cells ->
  split PIPE (format_table_row cells original) = [] :: cells ++ [[]].
Proof.
  intros Hnn Hcells. unfold format_table_row.
  rewrite <- join_with_empty_last by exact Hnn.
  change ([PIPE] ++ join [PIPE] (cells ++ [[]]))
    with ([] ++ PIPE :: join [PIPE] (cells ++ [[]])).
  rewrite split_line_then by (intros []).
  f_equal. apply split_join.
  - destruct cells; discriminate.
  - apply Forall_app. split; [exact Hcells|].
    constructor; [intros [] | constructor].
Qed.

Lemma format_then_parse (cells : list str) (original : str) :
  cells <> [] ->
  Forall (fun c => ~ In PIPE c) cells ->
  parse_table_row (format_table_row cells original ++ [NL])
  = Some (cells, format_table_row cells original).
Proof.
  intros Hnn Hcells.
  pose proof (split_formatted_row cells original Hnn Hcells) as Hsplit.
  unfold parse_table_row.
  assert (Hshape : format_table_row cells original
                   = PIPE :: join [PIPE] cells ++ [PIPE]) by reflexivity.
  assert (Horig : rstrip_chars [NL; CR] (format_table_row cells original ++ [NL])
                  = format_table_row cells original).
  { unfold rstrip_chars. rewrite rev_app_distr. cbn [rev app dropwhile].
    change (mem_char NL [NL; CR]) with true. cbn iota.
    rewrite Hshape.
    change (PIPE :: join [PIPE] cells ++ [PIPE])
      with ((PIPE :: join [PIPE] cells) ++ [PIPE]).
    rewrite rev_app_distr. cbn [rev app dropwhile].
    change (mem_char PIPE [NL; CR]) with false. cbn iota.
    change (PIPE :: rev (join [PIPE] cells) ++ [PIPE])
      with (rev [PIPE] ++ rev (PIPE :: join [PIPE] cells)).
    rewrite <- rev_app_distr, rev_involutive. reflexivity. }
  rewrite Horig.
  assert (Hstrip : strip (format_table_row cells original)
                   = format_table_row cells original).
  { rewrite Hshape. apply strip_between; reflexivity. }
  rewrite Hstrip.
  assert (Hc : contains [PIPE] (format_table_row cells original) = true).
  { apply ReverseTableExtra.contains_char. rewrite Hshape. left. reflexivity. }
  rewrite Hc.
  assert (Hs : startswith [PIPE] (format_table_row cells original) = true)
    by (rewrite Hshape; reflexivity).
  assert (He : endswith [PIPE] (format_table_row cells original) = true).
  { unfold endswith. rewrite Hshape.
    change (PIPE :: join [PIPE] cells ++ [PIPE])
      with ((PIPE :: join [PIPE] cells) ++ [PIPE]).
    rewrite rev_app_distr. reflexivity. }
  rewrite Hs, He. cbn [negb orb].
  rewrite Hsplit.
  change (drop_blank_first ([] :: cells ++ [[]])) with (cells ++ [[]]).
  unfold drop_blank_last. rewrite last_snoc.
  change (bool_decide (strip [] = [])) with true. cbn iota.
  rewrite removelast_last.
  destruct cells; [contradiction | reflexivity].
Qed.

(** X9.  A row written by [format_table_row] is read back by
    [parse_table_row] as the cells it was written from. *)
Theorem parse_formatted_row (cells : list str) (original : str) :
  cells <> [] ->
  Forall (fun c => ~ In PIPE c) cells ->
  parse_table_row (format_table_row cells original ++ [NL])
  = Some (cells, format_table_row cells original).
Proof. apply format_then_parse. Qed.

Lemma parse_formatted_row_witness :
  parse_table_row (format_table_row [lit " b "; lit ""; lit " a "] (lit "| a || b |") ++ [NL])
  = Some ([lit " b "; lit ""; lit " a "], lit "| b || a |").
Proof.
  apply (parse_formatted_row [lit " b "; lit ""; lit " a "] (lit "| a || b |")).
  - discriminate.
  - repeat constructor; vm_compute; intuition discriminate.
Defined.

Lemma drop_blank_first_sub (parts : list str) (P : str -> Prop) :
  Forall P parts -> Forall P (drop_blank_first parts).
Proof.
  intros H. destruct H as [|p ps Hp Hps]; simpl; [constructor|].
  case_bool_decide; [exact Hps | constructor; assumption].
Qed.

Lemma drop_blank_last_sub (parts : list str) (P : str -> Prop) :
  Forall P parts -> Forall P (drop_blank_last parts).
Proof.
  intros H. unfold drop_blank_last.
  destruct (last parts) as [p|]; [|exact H].
  case_bool_decide; [|exact H].
  apply List.Forall_forall. intros x Hx.
  rewrite List.Forall_forall in H. apply H.
  destruct parts as [|q qs] using rev_ind; [destruct Hx|].
  rewrite removelast_last in Hx. apply in_or_app. left. exact Hx.
Qed.

(** The cells of a table row: there is at least one and none holds a
    pipe. *)
Lemma parse_table_row_cells (line : str) (cells : list str) (original : str) :
  parse_table_row line = Some (cells, original) ->
  cells <> [] /\ Forall (fun c => ~ In PIPE c) cells.
Proof.
  unfold parse_table_row.
  destruct (negb (contains [PIPE] (rstrip_chars [NL; CR] line))); [discriminate|].
  destruct (negb (startswith [PIPE] (strip (rstrip_chars [NL; CR] line)))
            || negb (endswith [PIPE] (strip (rstrip_chars [NL; CR] line))));
    [discriminate|].
  pose proof (drop_blank_last_sub _ _
                (drop_blank_first_sub _ _
                   (split_without_sep PIPE (rstrip_chars [NL; CR] line)))) as Hsub.
  destruct (drop_blank_last (drop_blank_first (split PIPE (rstrip_chars [NL; CR] line))))
    as [|c cs]; [discriminate|].
  intros [= <- <-]. split; [discriminate | exact Hsub].
Qed.

Lemma index_in {A} (l : list A) (i : Z) (x : A) : index l i = Some x -> In x l.
Proof.
  unfold index. intros H.
  apply list_elem_of_In.
  destruct (0 <=? i)%Z; [exact (list_elem_of_lookup_2 _ _ _ H)|].
  destruct (0 <=? Z.of_nat (length l) + i)%Z; [|discriminate].
  exact (list_elem_of_lookup_2 _ _ _ H).
Qed.

Lemma pick_keeps (columns picked : list str) (order : list Z) (P : str -> Prop) :
  pick columns order = Some picked -> Forall P columns -> Forall P picked.
Proof.
  intros Hpick Hcols. apply pick_cells in Hpick.
  rewrite List.Forall_forall in Hcols.
  induction Hpick as [|i c order picked Hi _ IH]; constructor; [|exact IH].
  apply Hcols. exact (index_in _ _ _ Hi).
Qed.

Lemma pick_length (columns picked : list str) (order : list Z) :
  pick columns order = Some picked -> length picked = length order.
Proof.
  intros Hpick. apply pick_cells in Hpick.
  symmetry. exact (Forall2_length _ _ _ Hpick).
Qed.

(** Picking by the identity order gives the cells back. *)
Lemma pick_identity (cells : list str) :
  pick cells (range (length cells)) = Some cells.
Proof.
  apply pick_cells. apply Forall2_same_length_lookup. split.
  - apply range_length.
  - intros k i c Hi Hc.
    pose proof (lookup_lt_Some _ _ _ Hc) as Hk.
    unfold range in Hi. rewrite list_lookup_fmap, lookup_seq_lt in Hi by exact Hk.
    injection Hi as <-. rewrite index_in_range. exact Hc.
Qed.

(** Picking by a permutation and then by its inverse gives the cells
    back. *)
Lemma pick_inverse_permutation (cells picked : list str) (order : list Z) :
  Permutation order (range (length cells)) ->
  pick cells order = Some picked ->
  pick picked (inverse_permutation order) = Some cells.
Proof.
  intros HP Hpick.
  destruct (permutation_of_range _ _ HP) as (Hlen & Hrange & Hall).
  apply pick_cells in Hpick.
  apply pick_cells. apply Forall2_same_length_lookup. split.
  - unfold inverse_permutation. rewrite length_map, range_length. exact Hlen.
  - intros k i c Hi Hc.
    pose proof (lookup_lt_Some _ _ _ Hc) as Hk.
    unfold inverse_permutation, range in Hi.
    rewrite !list_lookup_fmap, Hlen in Hi.
    rewrite lookup_seq_lt in Hi by exact Hk. simpl in Hi.
    injection Hi as <-.
    rewrite index_in_range.
    destruct (index_of_lookup (Z.of_nat k) order (Hall k Hk)) as (Hpos & _).
    destruct (Forall2_lookup_l _ _ _ _ _ Hpick Hpos) as (c' & Hc' & Hidx).
    rewrite index_in_range in Hidx. congruence.
Qed.

(** ** The scan, line by line *)

Lemma process_rows_output (order : list Z) (lines result out : list str) :
  process_rows result lines order = inr out <->
  exists tail, out = result ++ tail /\ Forall2 (row_output order) lines tail.
Proof.
  revert result. induction lines as [|line lines IH]; intros result.
  - simpl. split.
    + intros [= <-]. exists []. rewrite app_nil_r. split; [reflexivity | constructor].
    + intros (tail & -> & HF). inversion HF. rewrite app_nil_r. reflexivity.
  - cbn [process_rows].
    destruct (parse_table_row line) as [[columns original]|] eqn:Hline.
    + destruct (Nat.eqb_spec (length columns) (length order)) as [Heq|Hne]; cbn [negb].
      * unfold reorder_columns.
        destruct (pick columns order) as [reordered|] eqn:Hpick.
        -- rewrite IH. split.
           ++ intros (tail & -> & HF).
              exists ((format_table_row reordered original ++ [NL]) :: tail).
              split; [rewrite <- app_assoc; reflexivity|].
              constructor; [|exact HF].
              unfold row_output. rewrite Hline. split; [exact Heq|].
              exists reordered. split; [exact Hpick | reflexivity].
           ++ intros (tail & -> & HF).
              inversion HF as [|? o ? tail' Ho HF']; subst.
              unfold row_output in Ho. rewrite Hline in Ho.
              destruct Ho as (_ & r & Hr & ->).
              assert (r = reordered) by congruence. subst r.
              exists tail'. split; [rewrite <- app_assoc; reflexivity | exact HF'].
        -- split; [discriminate|].
           intros (tail & _ & HF).
           inversion HF as [|? o ? tail' Ho HF']; subst.
           unfold row_output in Ho. rewrite Hline in Ho.
           destruct Ho as (_ & r & Hr & _). congruence.
      * split; [discriminate|].
        intros (tail & _ & HF).
        inversion HF as [|? o ? tail' Ho HF']; subst.
        unfold row_output in Ho. rewrite Hline in Ho.
        destruct Ho as (Hlen & _). contradiction.
    + rewrite IH. split.
      * intros (tail & -> & HF). exists (line :: tail).
        split; [rewrite <- app_assoc; reflexivity|].
        constructor; [|exact HF].
        unfold row_output. rewrite Hline. reflexivity.
      * intros (tail & -> & HF).
        inversion HF as [|? o ? tail' Ho HF']; subst.
        unfold row_output in Ho. rewrite Hline in Ho. subst o.
        exists tail'. split; [rewrite <- app_assoc; reflexivity | exact HF'].
Qed.

Lemma find_and_process_tables_line_by_line_aux (lines out : list str)
    (order : list Z) :
  find_and_process_tables lines order = inr out <->
  Forall2 (row_output order) lines out.
Proof.
  unfold find_and_process_tables. rewrite find_loop_rows, process_rows_output.
  split.
  - intros (tail & -> & HF). exact HF.
  - intros HF. exists out. split; [reflexivity | exact HF].
Qed.

(** X10.  The scan succeeds with [out] exactly when [out] is the input line by
    line, every line that is not a table row kept and every table row
    reordered: how the rows are grouped into tables makes no difference. *)
Theorem find_and_process_tables_line_by_line (lines out : list str) (order : list Z) :
  find_and_process_tables lines order = inr out <->
  Forall2 (row_output order) lines out.
Proof. apply find_and_process_tables_line_by_line_aux. Qed.

(** X11.  A successful scan gives as many lines as it was given, and every line
    that is not a table row is at its position, unchanged. *)
Theorem find_and_process_tables_keeps_other_lines (lines out : list str)
    (order : list Z) :
  find_and_process_tables lines order = inr out ->
  length out = length lines /\
  forall (i : nat) (l : str),
    lines !! i = Some l -> parse_table_row l = None -> out !! i = Some l.
Proof.
  intros H. apply find_and_process_tables_line_by_line_aux in H. split.
  - symmetry. exact (Forall2_length _ _ _ H).
  - intros i l Hi Hl.
    destruct (Forall2_lookup_l _ _ _ _ _ H Hi) as (o & Ho & Hrow).
    unfold row_output in Hrow. rewrite Hl in Hrow. congruence.
Qed.

Lemma find_and_process_tables_keeps_other_lines_witness :
  let lines := [lit "Intro
"; lit "| a | b |
"; lit "end"] in
  let out := [lit "Intro
"; lit "| b | a |
"; lit "end"] in
  length out = length lines /\
  out !! 0%nat = Some (lit "Intro
") /\ out !! 2%nat = Some (lit "end").
Proof.
  intros lines out.
  destruct (find_and_process_tables_keeps_other_lines lines out [1; 0]%Z)
    as (Hlen & Hkeep).
  - reflexivity.
  - split; [exact Hlen|]. split; apply Hkeep; reflexivity.
Defined.

Lemma rows_match_output (order : list Z) (lines : list str) :
  Permutation order (range (length order)) ->
  (forall line cells original,
     In line lines -> parse_table_row line = Some (cells, original) ->
     length cells = length order) ->
  exists out, Forall2 (row_output order) lines out.
Proof.
  intros HP. induction lines as [|line lines IH]; intros Hrows.
  - exists []. constructor.
  - destruct IH as [out Hout].
    { intros l c o Hl. apply Hrows. right. exact Hl. }
    destruct (parse_table_row line) as [[cells original]|] eqn:Hline.
    + pose proof (Hrows line cells original (or_introl eq_refl) Hline) as Hlen.
      destruct (permutation_of_range _ _ HP) as (_ & Hrange & _).
      rewrite <- Hlen in Hrange.
      destruct (pick_in_range cells order Hrange) as [picked Hpick].
      exists ((format_table_row picked original ++ [NL]) :: out).
      constructor; [|exact Hout].
      unfold row_output. rewrite Hline. eauto.
    + exists (line :: out). constructor; [|exact Hout].
      unfold row_output. rewrite Hline. reflexivity.
Qed.

Lemma output_rows_match (order : list Z) (lines out : list str) :
  Forall2 (row_output order) lines out ->
  forall line cells original,
    In line lines -> parse_table_row line = Some (cells, original) ->
    length cells = length order.
Proof.
  intros HF line cells original Hin Hline.
  apply list_elem_of_In, list_elem_of_lookup in Hin as [i Hi].
  destruct (Forall2_lookup_l _ _ _ _ _ HF Hi) as (o & _ & Hrow).
  unfold row_output in Hrow. rewrite Hline in Hrow. apply Hrow.
Qed.

(** X12.  With an order that is a permutation of [0..n-1], the scan succeeds
    exactly when every table row has [n] cells. *)
Theorem find_and_process_tables_succeeds (lines : list str) (order : list Z) :
  Permutation order (range (length order)) ->
  ((exists out, find_and_process_tables lines order = inr out) <->
   (forall line cells original,
      In line lines -> parse_table_row line = Some (cells, original) ->
      length cells = length order)).
Proof.
  intros HP. split.
  - intros (out & Hout). apply find_and_process_tables_line_by_line_aux in Hout.
    exact (output_rows_match order lines out Hout).
  - intros Hrows. destruct (rows_match_output order lines HP Hrows) as [out Hout].
    exists out. apply find_and_process_tables_line_by_line_aux. exact Hout.
Qed.

Lemma find_and_process_tables_succeeds_witness :
  exists out,
    find_and_process_tables [lit "| a | b | c |
"; lit "|---|---|---|
"; lit "text
"] [2; 0; 1]%Z = inr out.
Proof.
  apply (find_and_process_tables_succeeds _ [2; 0; 1]%Z).
  - apply (sorted_is_range [2; 0; 1]%Z). reflexivity.
  - intros line cells original [<-|[<-|[<-|[]]]] Hline;
      vm_compute in Hline;
      first [discriminate Hline | injection Hline as <- _; reflexivity].
Defined.

Lemma Forall2_compose {A B C} (R1 : A -> B -> Prop) (R2 : A -> C -> Prop)
    (R3 : B -> C -> Prop) (l : list A) (a : list B) (b : list C) :
  (forall x y z, R1 x y -> R2 x z -> R3 y z) ->
  Forall2 R1 l a -> Forall2 R2 l b -> Forall2 R3 a b.
Proof.
  intros HR H1. revert b. induction H1 as [|x y l a Hxy _ IH]; intros b H2.
  - inversion H2. constructor.
  - inversion H2 as [|? z ? b' Hxz H2']; subst.
    constructor; [exact (HR x y z Hxy Hxz) | apply IH, H2'].
Qed.

(** X13.  Reordering a document by a permutation and the result by the inverse
    permutation gives what reordering the document by the identity order
    gives: every table row written as its cells between pipes, in their
    first order, and every other line unchanged. *)
Theorem find_and_process_tables_round_trip (lines out : list str) (order : list Z) :
  Permutation order (range (length order)) ->
  find_and_process_tables lines order = inr out ->
  exists restored,
    find_and_process_tables out (inverse_permutation order) = inr restored /\
    find_and_process_tables lines (range (length order)) = inr restored.
Proof.
  intros HP Hout.
  apply find_and_process_tables_line_by_line_aux in Hout.
  assert (HPid : Permutation (range (length order))
                   (range (length (range (length order))))).
  { rewrite range_length. reflexivity. }
  destruct (rows_match_output (range (length order)) lines HPid) as [restored Hres].
  { intros line cells original Hin Hline. rewrite range_length.
    exact (output_rows_match order lines out Hout line cells original Hin Hline). }
  exists restored. split; apply find_and_process_tables_line_by_line_aux; [|exact Hres].
  apply (Forall2_compose (row_output order) (row_output (range (length order)))
           (row_output (inverse_permutation order)) lines out restored);
    [|exact Hout | exact Hres].
  intros line o r Ho Hr. unfold row_output in Ho, Hr.
  destruct (parse_table_row line) as [[cells original]|] eqn:Hline.
  - destruct Ho as (Hlen & picked & Hpick & ->).
    destruct Hr as (_ & same & Hsame & ->).
    destruct (parse_table_row_cells line cells original Hline) as (Hnn & Hpipes).
    assert (Hcells : same = cells).
    { rewrite <- Hlen, pick_identity in Hsame. congruence. }
    subst same.
    unfold row_output.
    rewrite format_then_parse.
    + split.
      * rewrite (pick_length _ _ _ Hpick).
        unfold inverse_permutation. rewrite length_map, range_length. reflexivity.
      * exists cells. split; [|reflexivity].
        apply pick_inverse_permutation; [|exact Hpick].
        rewrite Hlen. exact HP.
    + intros Hnil. apply (f_equal length) in Hnil.
      rewrite (pick_length _ _ _ Hpick), <- Hlen in Hnil.
      destruct cells; [contradiction | discriminate].
    + exact (pick_keeps _ _ _ _ Hpick Hpipes).
  - subst o r. unfold row_output. rewrite Hline. reflexivity.
Qed.

Lemma find_and_process_tables_round_trip_witness :
  find_and_process_tables [lit "| c | a | b |
"; lit "text
"] (inverse_permutation [2; 0; 1]%Z)
  = inr [lit "| a | b | c |
"; lit "text
"].
Proof.
  destruct (find_and_process_tables_round_trip
              [lit "  | a | b | c |  
"; lit "text
"]
              [lit "| c | a | b |
"; lit "text
"] [2; 0; 1]%Z) as (restored & Hback & Hid).
  - apply (sorted_is_range [2; 0; 1]%Z). reflexivity.
  - reflexivity.
  - rewrite Hback, <- Hid. reflexivity.
Defined.

(** ** Separator rows *)

Lemma strip_line_end (a b : char) (mid : str) :
  isspace a = false -> isspace b = false ->
  strip ((a :: mid ++ [b]) ++ [NL]) = a :: mid ++ [b].
Proof.
  intros Ha Hb. unfold strip, lstrip, rstrip.
  cbn [app dropwhile]. rewrite Ha.
  change (a :: (mid ++ [b]) ++ [NL]) with (((a :: mid) ++ [b]) ++ [NL]).
  rewrite !rev_app_distr. cbn [rev app dropwhile].
  change (isspace NL) with true. cbn iota. rewrite Hb.
  change (b :: rev mid ++ [a]) with (rev [b] ++ rev (a :: mid)).
  rewrite <- rev_app_distr, rev_involutive. reflexivity.
Qed.

Lemma is_table_separator_formatted (cells : list str) (original : str) :
  cells <> [] ->
  Forall (fun c => ~ In PIPE c) cells ->
  is_table_separator (format_table_row cells original ++ [NL])
  = forallb matches_dashes (List.filter truthy (List.map strip cells)).
Proof.
  intros Hnn Hcells.
  pose proof (split_formatted_row cells original Hnn Hcells) as Hsplit.
  assert (Hshape : format_table_row cells original
                   = PIPE :: join [PIPE] cells ++ [PIPE]) by reflexivity.
  unfold is_table_separator.
  assert (Hstrip : strip (format_table_row cells original ++ [NL])
                   = format_table_row cells original).
  { rewrite Hshape. apply (strip_line_end PIPE PIPE); reflexivity. }
  rewrite Hstrip.
  assert (Hs : startswith [PIPE] (format_table_row cells original) = true)
    by (rewrite Hshape; reflexivity).
  assert (He : endswith [PIPE] (format_table_row cells original) = true).
  { unfold endswith. rewrite Hshape.
    change (PIPE :: join [PIPE] cells ++ [PIPE])
      with ((PIPE :: join [PIPE] cells) ++ [PIPE]).
    rewrite rev_app_distr. reflexivity. }
  rewrite Hs, He, Hsplit. cbn [negb orb tl].
  rewrite removelast_last. reflexivity.
Qed.

Lemma forallb_filter {A} (p q : A -> bool) (l : list A) :
  forallb p (List.filter q l) = forallb (fun x => negb (q x) || p x) l.
Proof.
  induction l as [|x l IH]; simpl; [reflexivity|].
  destruct (q x); simpl; rewrite IH; reflexivity.
Qed.

Lemma forallb_perm {A} (p : A -> bool) (l l' : list A) :
  Permutation l l' -> forallb p l = forallb p l'.
Proof.
  induction 1 as [|x l l' _ IH|x y l|l l' l'' _ IH1 _ IH2]; simpl.
  - reflexivity.
  - rewrite IH. reflexivity.
  - destruct (p x), (p y); reflexivity.
  - congruence.
Qed.

Lemma pick_map (cells picked : list str) (order : list Z) :
  pick cells order = Some picked ->
  picked = List.map (fun i => default [] (index cells i)) order.
Proof.
  intros Hpick. apply pick_cells in Hpick.
  induction Hpick as [|i c order picked Hi _ IH]; simpl; [reflexivity|].
  rewrite Hi, <- IH. reflexivity.
Qed.

(** Picking by a permutation gives the cells in another order. *)
Lemma pick_permutation (cells picked : list str) (order : list Z) :
  Permutation order (range (length cells)) ->
  pick cells order = Some picked ->
  Permutation picked cells.
Proof.
  intros HP Hpick.
  rewrite (pick_map _ _ _ Hpick).
  etransitivity; [apply Permutation_map, HP|].
  rewrite <- (pick_map _ _ _ (pick_identity cells)). reflexivity.
Qed.

(** X14.  Reordering the cells of a table row by a permutation does not change
    whether the row written for it is a separator row. *)
Theorem reordered_row_separator (line original : str) (cells reordered : list str)
    (order : list Z) :
  parse_table_row line = Some (cells, original) ->
  Permutation order (range (length cells)) ->
  pick cells order = Some reordered ->
  is_table_separator (format_table_row reordered original ++ [NL])
  = is_table_separator (format_table_row cells original ++ [NL]).
Proof.
  intros Hline HP Hpick.
  destruct (parse_table_row_cells line cells original Hline) as (Hnn & Hpipes).
  pose proof (pick_permutation cells reordered order HP Hpick) as Hperm.
  assert (Hnn' : reordered <> []).
  { intros Hnil. rewrite Hnil in Hperm.
    apply Permutation_nil in Hperm. contradiction. }
  assert (Hpipes' : Forall (fun c => ~ In PIPE c) reordered).
  { eapply Permutation_Forall; [symmetry; exact Hperm | exact Hpipes]. }
  rewrite (is_table_separator_formatted reordered original Hnn' Hpipes').
  rewrite (is_table_separator_formatted cells original Hnn Hpipes).
  rewrite !forallb_filter. apply forallb_perm, Permutation_map, Hperm.
Qed.

Lemma reordered_row_separator_witness :
  is_table_separator (format_table_row [lit " --: "; lit " :-- "; lit " :-: "]
                        (lit "| :-- | :-: | --: |") ++ [NL]) = true.
Proof.
  rewrite (reordered_row_separator (lit "| :-- | :-: | --: |
") (lit "| :-- | :-: | --: |") [lit " :-- "; lit " :-: "; lit " --: "]
             [lit " --: "; lit " :-- "; lit " :-: "] [2; 0; 1]%Z).
  - reflexivity.
  - reflexivity.
  - apply (sorted_is_range [2; 0; 1]%Z). reflexivity.
  - reflexivity.
Defined.

(** ** The command line *)



End ReorderColumnsExtra.

(** * Further properties of split_by_year.py *)

Module SplitByYearExtra.
Import Py Run SplitByYear ReverseTableFacts SplitByYearFacts.

(** ** The metadata lines *)

Lemma scan_metadata_before (before rest : list str) (i : nat) :
  Forall (fun l => strip l <> lit "---") before ->
  scan_metadata i (before ++ rest) [] false
  = scan_metadata (i + length before) rest [] false.
Proof.
  intros H. revert i. induction H as [|l before Hl _ IH]; intros i; simpl.
  - rewrite Nat.add_0_r. reflexivity.
  - rewrite bool_decide_eq_false_2 by exact Hl.
    rewrite IH. f_equal. lia.
Qed.

Lemma scan_metadata_open (rest metadata_lines : list str) (i : nat) :
  Forall (fun l => strip l <> lit "---") rest ->
  scan_metadata i rest metadata_lines true = (metadata_lines ++ rest, O).
Proof.
  intros H. revert i metadata_lines.
  induction H as [|l rest Hl _ IH]; intros i metadata_lines; simpl.
  - rewrite app_nil_r. reflexivity.
  - rewrite bool_decide_eq_false_2 by exact Hl.
    rewrite IH, <- app_assoc. reflexivity.
Qed.

(** X16.  The metadata block is the first pair of lines that strip to [---],
    wherever it is: the metadata lines are those two lines and the lines
    between them, and the table is looked for after the second one. *)
Theorem scan_metadata_block (before inner body : list str) (opening closing : str) :
  Forall (fun l => strip l <> lit "---") before ->
  strip opening = lit "---" ->
  Forall (fun l => strip l <> lit "---") inner ->
  strip closing = lit "---" ->
  scan_metadata 0 (before ++ opening :: inner ++ closing :: body) [] false
  = (opening :: inner ++ [closing], (length before + length inner + 2)%nat).
Proof.
  intros Hbefore Hopen Hinner Hclose.
  rewrite scan_metadata_before by exact Hbefore. simpl.
  rewrite bool_decide_eq_true_2 by exact Hopen. simpl.
  rewrite scan_metadata_inside by assumption.
  simpl. f_equal. lia.
Qed.

Lemma scan_metadata_block_witness :
  scan_metadata 0 [lit "# Title
"; lit "---
"; lit "key: value
"; lit " ---
"; lit "text
"] [] false
  = ([lit "---
"; lit "key: value
"; lit " ---
"], 4%nat).
Proof.
  apply (scan_metadata_block [lit "# Title
"] [lit "key: value
"] [lit "text
"] (lit "---
") (lit " ---
")).
  - repeat constructor. discriminate.
  - reflexivity.
  - repeat constructor. discriminate.
  - reflexivity.
Defined.

(** X17.  When only one line strips to [---], that line and every line after it
    are metadata lines, and the table is looked for from the first line
    on. *)
Theorem scan_metadata_unclosed (before rest : list str) (opening : str) :
  Forall (fun l => strip l <> lit "---") before ->
  strip opening = lit "---" ->
  Forall (fun l => strip l <> lit "---") rest ->
  scan_metadata 0 (before ++ opening :: rest) [] false = (opening :: rest, O).
Proof.
  intros Hbefore Hopen Hrest.
  rewrite scan_metadata_before by exact Hbefore. simpl.
  rewrite bool_decide_eq_true_2 by exact Hopen. simpl.
  apply (scan_metadata_open rest [opening] _ Hrest).
Qed.

Lemma scan_metadata_unclosed_witness :
  scan_metadata 0 [lit "| Name | date |
"; lit "| --- | --- |
"; lit "---
"; lit "notes
"] [] false
  = ([lit "---
"; lit "notes
"], O).
Proof.
  apply (scan_metadata_unclosed [lit "| Name | date |
"; lit "| --- | --- |
"] [lit "notes
"] (lit "---
")).
  - repeat constructor; discriminate.
  - reflexivity.
  - repeat constructor. discriminate.
Defined.

(** ** The dictionary: its keys *)

Lemma dict_append_keys (k k' : key) (line : str) (d : dict) :
  In k' (List.map fst (dict_append k line d)) <-> k' = k \/ In k' (List.map fst d).
Proof.
  induction d as [|[k0 rows] d IH]; simpl.
  - intuition.
  - case_bool_decide as Hk; simpl.
    + subst k0. intuition.
    + rewrite IH. intuition.
Qed.

Lemma dict_append_NoDup (k : key) (line : str) (d : dict) :
  NoDup (List.map fst d) -> NoDup (List.map fst (dict_append k line d)).
Proof.
  induction d as [|[k0 rows] d IH]; simpl; intros Hnd.
  - repeat constructor. rewrite list_elem_of_In. intros [].
  - apply NoDup_cons in Hnd as (Hk0 & Hnd).
    case_bool_decide as Hk; simpl.
    + apply NoDup_cons. split; assumption.
    + apply NoDup_cons. split; [|apply IH, Hnd].
      rewrite list_elem_of_In in *. rewrite dict_append_keys.
      intros [?|?]; [congruence | contradiction].
Qed.

Lemma dict_mem_keys (k : key) (d : dict) :
  dict_mem k d = true <-> In k (List.map fst d).
Proof.
  unfold dict_mem. induction d as [|[k0 rows] d IH]; simpl.
  - split; [discriminate | intros []].
  - rewrite orb_true_iff, IH, bool_decide_eq_true. intuition.
Qed.

Lemma year_keys_in (y : Z) (d : dict) :
  In y (year_keys d) <-> In (Year y) (List.map fst d).
Proof.
  induction d as [|[[y0|] rows] d IH]; simpl.
  - reflexivity.
  - rewrite IH. split; intros [?|?]; auto; [left; congruence | left; congruence].
  - rewrite IH. split; [auto | intros [?|?]; [discriminate | assumption]].
Qed.

Lemma year_keys_NoDup (d : dict) :
  NoDup (List.map fst d) -> NoDup (year_keys d).
Proof.
  induction d as [|[[y0|] rows] d IH]; simpl; intros Hnd.
  - constructor.
  - apply NoDup_cons in Hnd as (Hk0 & Hnd).
    apply NoDup_cons. split; [|apply IH, Hnd].
    intros Hin%list_elem_of_In%year_keys_in. apply Hk0, list_elem_of_In, Hin.
  - apply NoDup_cons in Hnd as (_ & Hnd). apply IH, Hnd.
Qed.

(** ** Sorting *)

Lemma insert_sorted_sorted (x : Z) (l : list Z) :
  StronglySorted Z.le l -> StronglySorted Z.le (insert_sorted x l).
Proof.
  induction 1 as [|y l Hl IH Hy]; simpl.
  - repeat constructor.
  - destruct (Z.leb_spec x y).
    + constructor; [constructor; assumption|].
      constructor; [assumption|].
      eapply List.Forall_impl; [|exact Hy]. intros z Hz. lia.
    + constructor; [exact IH|].
      eapply Permutation_Forall;
        [symmetry; apply ReorderColumnsFacts.insert_sorted_perm|].
      constructor; [lia | exact Hy].
Qed.

Lemma sorted_sorted (l : list Z) : StronglySorted Z.le (sorted l).
Proof.
  induction l as [|x l IH]; simpl; [constructor|].
  apply insert_sorted_sorted, IH.
Qed.

Lemma sorted_strictly (l : list Z) : NoDup l -> StronglySorted Z.lt (sorted l).
Proof.
  intros Hnd.
  assert (Hnd' : NoDup (sorted l)).
  { rewrite ReorderColumnsFacts.sorted_perm. exact Hnd. }
  pose proof (sorted_sorted l) as Hs.
  induction Hs as [|x l' Hl' IH Hx]; [constructor|].
  apply NoDup_cons in Hnd' as (Hnx & Hnd').
  constructor; [apply IH, Hnd'|].
  rewrite List.Forall_forall in *. intros z Hz.
  assert (x <> z).
  { intros ->. apply Hnx, list_elem_of_In, Hz. }
  specialize (Hx z Hz). lia.
Qed.

(** ** Stripping *)

Lemma dropwhile_idem (p : N -> bool) (s : list N) :
  dropwhile p (dropwhile p s) = dropwhile p s.
Proof.
  induction s as [|c s IH]; simpl; [reflexivity|].
  destruct (p c) eqn:Hc; [exact IH|]. simpl. rewrite Hc. reflexivity.
Qed.

Lemma dropwhile_head (p : char -> bool) (s t : str) (x : char) :
  dropwhile p s = x :: t -> p x = false.
Proof.
  induction s as [|c s IH]; simpl; [discriminate|].
  destruct (p c) eqn:Hc; [exact IH|]. intros [= <- _]. exact Hc.
Qed.

Lemma dropwhile_snoc (p : N -> bool) (l : list N) (x : N) :
  p x = false -> exists u : list N, dropwhile p (l ++ [x]) = u ++ [x].
Proof.
  intros Hx. induction l as [|c l IH]; simpl.
  - rewrite Hx. exists []. reflexivity.
  - destruct (p c); [exact IH|]. exists (c :: l). reflexivity.
Qed.

Lemma dropwhile_in (p : char -> bool) (s : str) (c : char) :
  In c s -> p c = false -> In c (dropwhile p s).
Proof.
  intros Hin Hc. induction s as [|x s IH]; [destruct Hin|]. simpl.
  destruct (p x) eqn:Hx; [|exact Hin].
  destruct Hin as [->|Hin]; [congruence | apply IH, Hin].
Qed.

Lemma strip_idem (s : str) : strip (strip s) = strip s.
Proof.
  unfold strip, lstrip, rstrip.
  destruct (dropwhile isspace s) as [|x t] eqn:Ht; [reflexivity|].
  pose proof (dropwhile_head _ _ _ _ Ht) as Hx.
  cbn [rev].
  destruct (dropwhile_snoc isspace (rev t) x Hx) as [u Hu].
  pose proof (dropwhile_idem isspace (rev t ++ [x])) as Hfix.
  rewrite Hu in Hfix.
  rewrite Hu, rev_app_distr. cbn [rev app dropwhile]. rewrite Hx.
  cbn [rev]. rewrite rev_involutive, Hfix, rev_app_distr. reflexivity.
Qed.

Lemma strip_in (s : str) (c : char) :
  In c s -> isspace c = false -> In c (strip s).
Proof.
  intros Hin Hc. unfold strip, lstrip, rstrip.
  apply -> in_rev. apply dropwhile_in; [|exact Hc].
  apply -> in_rev. apply dropwhile_in; assumption.
Qed.

Lemma strip_not_blank (s : str) (c : char) :
  In c s -> isspace c = false -> strip s <> [].
Proof.
  intros Hin Hc Hnil. pose proof (strip_in s c Hin Hc) as H.
  rewrite Hnil in H. destruct H.
Qed.

Section Extra.
Variable strptime_year : str -> option Z.
Variable path_stem : str -> str.
Variable path_sibling : str -> str -> str.
Variable os : faults.

Abbreviation split_markdown_by_year :=
  (split_markdown_by_year strptime_year path_stem path_sibling os).
Abbreviation parse_date := (parse_date strptime_year).
Abbreviation bucket_row := (bucket_row strptime_year).
Abbreviation row_key := (row_key strptime_year).
Abbreviation bucket_of := (bucket_of strptime_year).

(** ** The buckets *)

Lemma bucket_row_by_key (d : dict) (line : str) :
  bucket_row d line
  = if is_data_row line then dict_append (row_key line) line d else d.
Proof.
  destruct (is_data_row line) eqn:Hrow; [|apply bucket_row_skip, Hrow].
  unfold is_data_row in Hrow.
  apply andb_prop in Hrow as (Hrow & Hlen). apply andb_prop in Hrow as (Hb & Hp).
  apply Nat.leb_le in Hlen.
  unfold SplitByYear.bucket_row, SplitByYear.row_key.
  rewrite Hb, Hp. cbn [negb orb]. rewrite length_map.
  destruct (Nat.ltb_spec (length (split PIPE line)) 3); [lia|].
  destruct (SplitByYear.parse_date strptime_year _) as [year|]; [|reflexivity].
  case_bool_decide; reflexivity.
Qed.

Lemma bucket_rows_get (k : key) (lines : list str) (d : dict) :
  dict_get k (fold_left bucket_row lines d) = dict_get k d ++ bucket_of k lines.
Proof.
  revert d. induction lines as [|line lines IH]; intros d.
  - simpl. rewrite app_nil_r. reflexivity.
  - cbn [fold_left]. rewrite IH, bucket_row_by_key.
    unfold SplitByYear.bucket_of. cbn [List.filter].
    destruct (is_data_row line); cbn [andb]; [|reflexivity].
    rewrite dict_get_append.
    rewrite (bool_decide_ext (k = row_key line) (row_key line = k)) by (split; congruence).
    case_bool_decide; [|reflexivity].
    rewrite <- app_assoc. reflexivity.
Qed.

Lemma bucket_rows_NoDup (lines : list str) (d : dict) :
  NoDup (List.map fst d) -> NoDup (List.map fst (fold_left bucket_row lines d)).
Proof.
  revert d. induction lines as [|line lines IH]; intros d Hnd; [exact Hnd|].
  cbn [fold_left]. apply IH. rewrite bucket_row_by_key.
  destruct (is_data_row line); [apply dict_append_NoDup, Hnd | exact Hnd].
Qed.

Lemma bucket_rows_keys (k : key) (lines : list str) (d : dict) :
  In k (List.map fst (fold_left bucket_row lines d))
  <-> In k (List.map fst d) \/ bucket_of k lines <> [].
Proof.
  revert d. induction lines as [|line lines IH]; intros d.
  - simpl. intuition.
  - cbn [fold_left]. rewrite IH, bucket_row_by_key.
    unfold SplitByYear.bucket_of. cbn [List.filter].
    destruct (is_data_row line); cbn [andb]; [|reflexivity].
    rewrite dict_append_keys.
    case_bool_decide as Hk.
    + split; [intros _; right; discriminate | intros _; left; left; congruence].
    + split.
      * intros [[?|?]|?]; [congruence | left; assumption | right; assumption].
      * intros [?|?]; [left; right; assumption | right; assumption].
Qed.

(** X18.  Each bucket holds the data rows of its key, all of them and once
    each, in the order they have in the document. *)
Theorem rows_by_year_buckets (k : key) (lines : list str) :
  dict_get k (fold_left bucket_row lines []) = bucket_of k lines.
Proof. apply (bucket_rows_get k lines []). Qed.

(** ** The run *)

(** X20.  A header on the last line of the document has no separator line
    below it and no data rows: the run writes no file, so that the
    [f.write(table_separator)] of a missing separator is never reached,
    prints that there are 0 years, and ends normally. *)
Theorem split_markdown_by_year_header_last (input_file : str) (fs : gmap str str)
    (text : str) (table_start : nat) (header : str) :
  fs !! input_file = Some text ->
  find_header (scan_metadata 0 (readlines text) [] false).2
    (drop (scan_metadata 0 (readlines text) [] false).2 (readlines text))
    = Some (table_start, header) ->
  readlines text !! (table_start + 1)%nat = None ->
  split_markdown_by_year input_file fs =
    {| exit_code := 0; writes := [];
       stdout := [Text ([NL] ++ lit "Total years: 0")];
       stderr := [] |}.
Proof.
  intros Hfile Hfind Hsep.
  unfold SplitByYear.split_markdown_by_year. rewrite Hfile.
  destruct (scan_metadata 0 (readlines text) [] false) as [metadata_lines metadata_end].
  cbn [fst snd] in *.
  rewrite content_start_is_metadata_end, Hfind, Hsep.
  apply lookup_ge_None in Hsep.
  rewrite drop_ge by lia. reflexivity.
Qed.

(** X21.  With a header and a separator line, the files written are one for
    each year that has a data row, in ascending order of the year, then
    the unknown-dates file if a data row has no year; each file is the
    metadata head, the header line, the separator line and the data rows
    of its key in document order. *)
Theorem split_markdown_by_year_files (input_file : str) (fs : gmap str str)
    (text : str) (table_start : nat) (header separator : str) :
  fs !! input_file = Some text ->
  find_header (scan_metadata 0 (readlines text) [] false).2
    (drop (scan_metadata 0 (readlines text) [] false).2 (readlines text))
    = Some (table_start, header) ->
  readlines text !! (table_start + 1)%nat = Some separator ->
  exists years : list Z,
    StronglySorted Z.lt years /\
    (forall y, In y years
               <-> bucket_of (Year y) (drop (table_start + 2) (readlines text)) <> []) /\
    writes (split_markdown_by_year input_file fs)
    = List.map
        (fun k =>
           (path_sibling input_file (output_name (path_stem input_file) k),
            file_head (scan_metadata 0 (readlines text) [] false).1 header
            ++ separator
            ++ concat_str (bucket_of k (drop (table_start + 2) (readlines text)))))
        (List.map Year years
         ++ (if bool_decide
                  (bucket_of Unknown (drop (table_start + 2) (readlines text)) = [])
             then [] else [Unknown])).
Proof.
  intros Hfile Hfind Hsep.
  set (rows := drop (table_start + 2) (readlines text)).
  set (d := fold_left bucket_row rows []).
  assert (Hnd : NoDup (List.map fst d)) by (apply bucket_rows_NoDup; constructor).
  assert (Hkeys : forall k, In k (List.map fst d) <-> bucket_of k rows <> []).
  { intros k. unfold d. rewrite bucket_rows_keys. simpl. intuition. }
  exists (sorted (year_keys d)). split; [|split].
  - apply sorted_strictly, year_keys_NoDup, Hnd.
  - intros y. rewrite <- Hkeys, <- year_keys_in.
    split; apply Permutation_in;
      [apply ReorderColumnsFacts.sorted_perm
      | symmetry; apply ReorderColumnsFacts.sorted_perm].
  - unfold SplitByYear.split_markdown_by_year. rewrite Hfile.
    destruct (scan_metadata 0 (readlines text) [] false) as [metadata_lines metadata_end].
    cbn [fst snd] in *.
    rewrite content_start_is_metadata_end, Hfind, Hsep.
    fold rows. fold d. rewrite write_files_all. cbn [writes app].
    assert (Hunknown : dict_mem Unknown d
                       = negb (bool_decide (bucket_of Unknown rows = []))).
    { destruct (dict_mem Unknown d) eqn:Hm.
      - apply dict_mem_keys, Hkeys in Hm.
        rewrite bool_decide_eq_false_2 by exact Hm. reflexivity.
      - case_bool_decide as Hb; [reflexivity|].
        apply Hkeys, dict_mem_keys in Hb. congruence. }
    rewrite Hunknown.
    destruct (bool_decide (bucket_of Unknown rows = [])); cbn [negb];
      apply map_ext; intros k; unfold year_file, d;
      rewrite (bucket_rows_get k rows []); reflexivity.
Qed.

Lemma dict_append_rows (k : key) (line : str) (d : dict) :
  Permutation (List.concat (List.map snd (dict_append k line d)))
              (line :: List.concat (List.map snd d)).
Proof.
  induction d as [|[k0 rows] d IH]; simpl.
  - reflexivity.
  - case_bool_decide; simpl.
    + rewrite <- app_assoc. symmetry.
      change (line :: rows ++ List.concat (List.map snd d))
        with ([line] ++ rows ++ List.concat (List.map snd d)).
      rewrite !app_assoc. apply Permutation_app_tail, Permutation_app_comm.
    + rewrite IH. symmetry. apply Permutation_middle.
Qed.

Lemma bucket_rows_all (lines : list str) (d : dict) :
  Permutation (List.concat (List.map snd (fold_left bucket_row lines d)))
              (List.concat (List.map snd d) ++ List.filter is_data_row lines).
Proof.
  revert d. induction lines as [|line lines IH]; intros d.
  - simpl. rewrite app_nil_r. reflexivity.
  - cbn [fold_left List.filter]. rewrite IH, bucket_row_by_key.
    destruct (is_data_row line); [|reflexivity].
    rewrite dict_append_rows. apply Permutation_middle.
Qed.

(** X19.  The buckets together hold the data rows: every data row is in one
    bucket, once, and nothing else is in a bucket. *)
Theorem rows_by_year_partition (lines : list str) :
  Permutation (List.concat (List.map snd (fold_left bucket_row lines [])))
              (List.filter is_data_row lines).
Proof. apply (bucket_rows_all lines []). Qed.

(** ** Dates *)

(** X22.  A date range is filed under its start date: when the text before the
    first arrow is not blank, the date cell parses as that text does. *)
Theorem parse_date_range (start rest : str) :
  ~ In ARROW start ->
  strip start <> [] ->
  parse_date (start ++ ARROW :: rest) = parse_date start.
Proof.
  intros Harrow Hstart.
  assert (Hne : start <> []) by (intros ->; apply Hstart; reflexivity).
  unfold SplitByYear.parse_date.
  assert (Ht1 : truthy (start ++ ARROW :: rest) = true) by (destruct start; reflexivity).
  assert (Ht2 : truthy start = true) by (destruct start; [contradiction | reflexivity]).
  rewrite Ht1, Ht2. cbn [negb orb].
  rewrite (bool_decide_eq_false_2 (strip (start ++ ARROW :: rest) = []));
    [|apply (strip_not_blank _ ARROW);
      [apply in_or_app; right; left; reflexivity | reflexivity]].
  rewrite (bool_decide_eq_false_2 (strip start = [])) by exact Hstart.
  assert (Hc1 : contains [ARROW] (start ++ ARROW :: rest) = true).
  { apply ReverseTableExtra.contains_char. apply in_or_app. right. left. reflexivity. }
  assert (Hc2 : contains [ARROW] start = false).
  { destruct (contains [ARROW] start) eqn:Hc; [|reflexivity].
    apply ReverseTableExtra.contains_char in Hc. contradiction. }
  rewrite Hc1, Hc2.
  rewrite split_line_then by exact Harrow.
  cbn [hd]. rewrite strip_idem. reflexivity.
Qed.

End Extra.

Lemma split_markdown_by_year_header_last_witness :
  SplitByYear.split_markdown_by_year strptime_year_c posix_stem posix_sibling no_faults
    (lit "log.md") {[ lit "log.md" := lit "# Log
| Name | date |" ]}
  = {| exit_code := 0; writes := [];
       stdout := [Text ([NL] ++ lit "Total years: 0")];
       stderr := [] |}.
Proof.
  apply (split_markdown_by_year_header_last strptime_year_c posix_stem posix_sibling
           no_faults (lit "log.md") _ (lit "# Log
| Name | date |") 1 (lit "| Name | date |")).
  - apply lookup_singleton_eq.
  - vm_compute. reflexivity.
  - vm_compute. reflexivity.
Defined.

Lemma split_markdown_by_year_files_witness :
  let text := lit "| Name | date |
| --- | --- |
| a | May 1, 2024 |
| b | June 2, 2022 |
| c | May 3, 2024 |
" in
  exists years : list Z,
    StronglySorted Z.lt years /\
    List.map fst
      (writes (SplitByYear.split_markdown_by_year strptime_year_c posix_stem posix_sibling
                 no_faults (lit "log.md") {[ lit "log.md" := text ]}))
    = List.map (fun y => lit "log_" ++ str_of_Z y ++ lit ".md") years.
Proof.
  intros text.
  destruct (split_markdown_by_year_files strptime_year_c posix_stem posix_sibling
              no_faults (lit "log.md") {[ lit "log.md" := text ]} text 0
              (lit "| Name | date |
") (lit "| --- | --- |
")) as (years & Hsorted & _ & Hwrites).
  - apply lookup_singleton_eq.
  - vm_compute. reflexivity.
  - vm_compute. reflexivity.
  - exists years. split; [exact Hsorted|].
    rewrite Hwrites.
    replace (bool_decide
               (SplitByYear.bucket_of strptime_year_c Unknown
                  (drop (0 + 2) (readlines text)) = [])) with true
      by (vm_compute; reflexivity).
    rewrite app_nil_r, !List.map_map. apply map_ext. intros y. reflexivity.
Defined.

Lemma parse_date_range_witness :
  SplitByYear.parse_date strptime_year_c
    (lit "December 30, 2024 " ++ ARROW :: lit " January 2, 2025")
  = SplitByYear.parse_date strptime_year_c (lit "December 30, 2024 ").
Proof.
  apply parse_date_range.
  - vm_compute. intuition discriminate.
  - vm_compute. discriminate.
Defined.

End SplitByYearExtra.
